(** * travelcheck: passport-stamp OCR service and flight-confirmation parser

    A shallow embedding of [backend/app/services/ocr_service.py] and
    [backend/app/services/email_service.py] together with the pydantic
    models they build, of the stamp parser, the storage paths and the
    text detection of [backend/app/services/google_cloud_service.py],
    and the properties of the extraction pipeline proved about that
    embedding.

    Text is modelled as Rocq [string]s (8-bit characters); the Python
    string methods and the [re] character classes are given their ASCII
    meaning, which is the one Python gives them on ASCII text
    ([str.isascii]).  The floats of the recognition step are IEEE 754
    binary64 numbers.  The image library ([cv2]), the OCR engine ([pytesseract])
    and the wall clock ([datetime.now]) are collaborators outside the
    repository: they appear as interfaces whose operations the service
    code calls. *)

From Stdlib Require Import ZArith QArith Ascii String List Bool Lia.
From Stdlib Require SpecFloat.
From stdpp Require Import gmap strings list fin_maps.

#[local] Open Scope string_scope.
#[local] Open Scope Z_scope.

(* ===================================================================== *)
(** ** Python text primitives *)
(* ===================================================================== *)

Module Py.

Abbreviation ctext := (list ascii).

Definition chars (s : string) : ctext := list_ascii_of_string s.
Definition str (t : ctext) : string := string_of_list_ascii t.

Definition code (c : ascii) : N := N_of_ascii c.
Definition between (lo hi : ascii) (c : ascii) : bool :=
  (code lo <=? code c)%N && (code c <=? code hi)%N.

Definition isupper (c : ascii) : bool := between "A" "Z" c.
Definition islower (c : ascii) : bool := between "a" "z" c.
Definition isdigit (c : ascii) : bool := between "0" "9" c.
(** [\s] on ASCII text: space, \t, \n, \v, \f, \r and the separators
    \x1c..\x1f that Python's [str] patterns also accept. *)
Definition isspace (c : ascii) : bool :=
  (code c =? 32)%N || ((9 <=? code c)%N && (code c <=? 13)%N)
  || ((28 <=? code c)%N && (code c <=? 31)%N).

Definition to_lower (c : ascii) : ascii :=
  if isupper c then ascii_of_N (code c + 32) else c.
Definition to_upper (c : ascii) : ascii :=
  if islower c then ascii_of_N (code c - 32) else c.

(** [s.isascii()] *)
Definition isascii (s : string) : bool :=
  forallb (fun c => (code c <? 128)%N) (chars s).

(** [s.lower()], [s.upper()], as they are on ASCII text *)
Definition lower (s : string) : string := str (map to_lower (chars s)).
Definition upper (s : string) : string := str (map to_upper (chars s)).

(** [s.title()] as it is on ASCII text: the first cased character of
    every run of letters is upper-cased, the following ones are
    lower-cased. *)
Fixpoint title_from (prev_cased : bool) (t : ctext) : ctext :=
  match t with
  | [] => []
  | c :: t' =>
      if isupper c || islower c
      then (if prev_cased then to_lower c else to_upper c) :: title_from true t'
      else c :: title_from false t'
  end.
Definition title (s : string) : string := str (title_from false (chars s)).

(** [t[:len(needle)] == needle] *)
Fixpoint startswith (needle t : ctext) : bool :=
  match needle, t with
  | [], _ => true
  | _ :: _, [] => false
  | a :: needle', b :: t' => Ascii.eqb a b && startswith needle' t'
  end.

(** [needle in hay] on character lists *)
Fixpoint contains (needle hay : ctext) : bool :=
  startswith needle hay ||
  match hay with
  | [] => false
  | _ :: hay' => contains needle hay'
  end.

(** [needle in hay] *)
Definition str_in (needle hay : string) : bool :=
  contains (chars needle) (chars hay).

(** [s.strip()] *)
Fixpoint lstrip (t : ctext) : ctext :=
  match t with
  | c :: t' => if isspace c then lstrip t' else t
  | [] => []
  end.
Definition strip (s : string) : string :=
  str (rev (lstrip (rev (lstrip (chars s))))).

(** Truth value of a string: [""] is falsy. *)
Definition truthy (s : string) : bool :=
  match s with
  | String _ _ => true
  | EmptyString => false
  end.

(** Truth value of an optional string: [None] and [""] are falsy. *)
Definition truthy_str (o : option string) : bool :=
  match o with
  | Some (String _ _) => true
  | _ => false
  end.

End Py.

(* ===================================================================== *)
(** ** The fragment of [re] the services use *)
(* ===================================================================== *)

Module Re.
Import Py.

(** Patterns.  Every pattern of the two services is one capturing group
    around the whole expression, so [group(1)] is the matched text and
    the inner [(?:...)] groups need no bookkeeping. *)
Inductive regex : Type :=
| Chr (c : ascii)                              (* a literal character *)
| Cls (p : ascii -> bool)                      (* a character class *)
| Cat (r1 r2 : regex)                          (* r1 r2 *)
| Alt (r1 r2 : regex)                          (* r1|r2 *)
| Rep (r : regex) (lo : nat) (hi : option nat) (* greedy r{lo,hi} *).

Definition digit : regex := Cls isdigit.                      (* \d *)
Definition space : regex := Cls isspace.                      (* \s *)
Definition A_Z : regex := Cls isupper.                        (* [A-Z] *)
Definition a_z : regex := Cls islower.                        (* [a-z] *)
(** [[...]]: one of the listed characters *)
Definition OneOf (s : string) : regex :=
  Cls (fun c => existsb (Ascii.eqb c) (chars s)).

Definition Opt (r : regex) : regex := Rep r 0 (Some 1%nat).   (* r?  *)
Definition Plus (r : regex) : regex := Rep r 1 None.          (* r+  *)
Definition Star (r : regex) : regex := Rep r 0 None.          (* r*  *)

Fixpoint Word_from (t : ctext) : regex :=
  match t with
  | [] => Rep (Chr "x") 0 (Some 0%nat)
  | [c] => Chr c
  | c :: t' => Cat (Chr c) (Word_from t')
  end.
(** a literal word *)
Definition Word (s : string) : regex := Word_from (chars s).

(** r1 r2 ... rn *)
Fixpoint Seq (r : regex) (rs : list regex) : regex :=
  match rs with
  | [] => r
  | r' :: rs' => Cat r (Seq r' rs')
  end.

(** r1|r2|...|rn *)
Fixpoint Alts (r : regex) (rs : list regex) : regex :=
  match rs with
  | [] => r
  | r' :: rs' => Alt r (Alts r' rs')
  end.

(** Does character [c] satisfy the test [p], under [re.IGNORECASE] when
    [ic] is set (the other case of [c] is tried as well)?  On ASCII text
    this is the case folding of Python; outside ASCII Python knows more
    pairs. *)
Definition test (ic : bool) (p : ascii -> bool) (c : ascii) : bool :=
  p c || (ic && (p (to_lower c) || p (to_upper c))).

(** Backtracking matcher: all the ways [r] matches a prefix of [t],
    each given by the text left over, in the order the engine tries
    them (left alternative first, one more iteration before stopping).
    An unbounded repetition is cut at [length t] iterations: every
    iteration of the patterns below consumes a character. *)
Fixpoint matches (ic : bool) (r : regex) (t : ctext) {struct r} : list ctext :=
  match r with
  | Chr a =>
      match t with
      | c :: t' => if test ic (Ascii.eqb a) c then [t'] else []
      | [] => []
      end
  | Cls p =>
      match t with
      | c :: t' => if test ic p c then [t'] else []
      | [] => []
      end
  | Cat r1 r2 => flat_map (matches ic r2) (matches ic r1 t)
  | Alt r1 r2 => (matches ic r1 t ++ matches ic r2 t)%list
  | Rep r' lo hi =>
      (fix rep (n lo : nat) (t : ctext) {struct n} : list ctext :=
         match n with
         | O => match lo with O => [t] | S _ => [] end
         | S n' =>
             (flat_map (rep n' (Nat.pred lo)) (matches ic r' t)
              ++ match lo with O => [t] | S _ => [] end)%list
         end)
        (match hi with Some h => h | None => length t end) lo t
  end.

(** The match the engine reports at the start of [t]: the matched text
    and the number of characters it spans. *)
Definition match_here (ic : bool) (r : regex) (t : ctext) : option (ctext * nat) :=
  match matches ic r t with
  | rest :: _ => let n := (length t - length rest)%nat in Some (take n t, n)
  | [] => None
  end.

(** [re.search(r, t).group(1)]: the leftmost match. *)
Fixpoint search_from (ic : bool) (r : regex) (t : ctext) : option ctext :=
  match match_here ic r t with
  | Some (m, _) => Some m
  | None =>
      match t with
      | [] => None
      | _ :: t' => search_from ic r t'
      end
  end.
Definition search (ic : bool) (r : regex) (s : string) : option string :=
  option_map str (search_from ic r (chars s)).

(** [re.findall(r, t)]: the non-overlapping matches from left to right.
    [skip] counts the characters of the current match still to pass.
    No pattern of the services matches the empty text, so every match
    moves the scan forward. *)
Fixpoint findall_from (ic : bool) (r : regex) (skip : nat) (t : ctext) : list ctext :=
  match t with
  | [] => []
  | _ :: t' =>
      match skip with
      | S k => findall_from ic r k t'
      | O =>
          match match_here ic r t with
          | Some (m, n) => m :: findall_from ic r (Nat.pred n) t'
          | None => findall_from ic r O t'
          end
      end
  end.
Definition findall (ic : bool) (r : regex) (s : string) : list string :=
  map str (findall_from ic r O (chars s)).

End Re.

(* ===================================================================== *)
(** ** [datetime] *)
(* ===================================================================== *)

Module Datetime.
Import Py Re.

Record datetime : Type := mk_datetime {
  year : Z; month : Z; day : Z;
  hour : Z; minute : Z; second : Z; microsecond : Z
}.

(** [a > b] on naive datetimes: lexicographic on the components. *)
Fixpoint lex_gt (a b : list Z) : bool :=
  match a, b with
  | x :: a', y :: b' => (y <? x) || ((x =? y) && lex_gt a' b')
  | _, _ => false
  end.
Definition components (d : datetime) : list Z :=
  [year d; month d; day d; hour d; minute d; second d; microsecond d].
Definition gt (a b : datetime) : bool := lex_gt (components a) (components b).

Definition is_leap (y : Z) : bool :=
  (y mod 4 =? 0) && (negb (y mod 100 =? 0) || (y mod 400 =? 0)).
Definition days_in_month (y m : Z) : Z :=
  if m =? 2 then (if is_leap y then 29 else 28)
  else if (m =? 4) || (m =? 6) || (m =? 9) || (m =? 11) then 30
  else 31.
(** The check [date(year, month, day)] makes; failing it is a ValueError. *)
Definition valid_date (y m d : Z) : bool :=
  (1 <=? y) && (y <=? 9999) && (1 <=? m) && (m <=? 12)
  && (1 <=? d) && (d <=? days_in_month y m).

(** The directives of the six formats of [_parse_date]. *)
Inductive directive : Type :=
| D_d | D_m | D_y | D_Y
| D_chr (c : ascii).

(** A format string as its directives; [None] for a directive outside
    the four above. *)
Fixpoint directives (fmt : ctext) : option (list directive) :=
  match fmt with
  | [] => Some []
  | "%"%char :: c :: fmt' =>
      match (if Ascii.eqb c "d" then Some D_d
             else if Ascii.eqb c "m" then Some D_m
             else if Ascii.eqb c "y" then Some D_y
             else if Ascii.eqb c "Y" then Some D_Y
             else None), directives fmt' with
      | Some d, Some ds => Some (d :: ds)
      | _, _ => None
      end
  | c :: fmt' => option_map (cons (D_chr c)) (directives fmt')
  end.

(** The regular expression [strptime] substitutes for a directive. *)
Definition directive_regex (d : directive) : regex :=
  match d with
  | D_d => (* 3[0-1]|[1-2]\d|0[1-9]|[1-9]| [1-9] *)
      Alts (Cat (Chr "3") (Cls (between "0" "1")))
           [Cat (Cls (between "1" "2")) digit;
            Cat (Chr "0") (Cls (between "1" "9"));
            Cls (between "1" "9");
            Cat (Chr " ") (Cls (between "1" "9"))]
  | D_m => (* 1[0-2]|0[1-9]|[1-9] *)
      Alts (Cat (Chr "1") (Cls (between "0" "2")))
           [Cat (Chr "0") (Cls (between "1" "9"));
            Cls (between "1" "9")]
  | D_y => (* \d\d *) Cat digit digit
  | D_Y => (* \d\d\d\d *) Seq digit [digit; digit; digit]
  | D_chr c => Chr c
  end.

(** [int(s)] for a run of digits, blanks skipped. *)
Definition int_of (t : ctext) : Z :=
  fold_left (fun n c => if isdigit c then 10 * n + Z.of_N (code c - 48) else n) t 0.

(** The fields found so far: year, month, day (defaults 1900, 1, 1). *)
Definition fields : Type := Z * Z * Z.
Definition set_field (d : directive) (m : ctext) (f : fields) : fields :=
  let '(y, mo, da) := f in
  match d with
  | D_d => (y, mo, int_of m)
  | D_m => (y, int_of m, da)
  | D_Y => (int_of m, mo, da)
  | D_y => ((if int_of m <=? 68 then 2000 else 1900) + int_of m, mo, da)
  | D_chr _ => f
  end.

(** All the ways the format's expression matches a prefix of [t], in the
    engine's order, each with the fields it captured and the text left. *)
Fixpoint format_matches (ds : list directive) (f : fields) (t : ctext)
  : list (fields * ctext) :=
  match ds with
  | [] => [(f, t)]
  | d :: ds' =>
      flat_map
        (fun rest =>
           format_matches ds'
             (set_field d (take (length t - length rest)%nat t) f) rest)
        (matches true (directive_regex d) t)
  end.

(** [datetime.strptime(date_str, fmt)]; [None] stands for ValueError:
    the expression does not match at the start, or text is left over
    after the match, or the day does not exist. *)
Definition strptime (date_str fmt : string) : option datetime :=
  match directives (chars fmt) with
  | None => None
  | Some ds =>
      match format_matches ds (1900, 1, 1) (chars date_str) with
      | ((y, m, d), []) :: _ =>
          if valid_date y m d then Some (mk_datetime y m d 0 0 0 0) else None
      | _ => None
      end
  end.

End Datetime.

(* ===================================================================== *)
(** ** Python values held by the services' dictionaries *)
(* ===================================================================== *)

Inductive pyval : Type :=
| PNone
| PStr (s : string)
| PDate (d : Datetime.datetime)
| PList (l : list string).

#[global] Instance datetime_eq_dec : EqDecision Datetime.datetime.
Proof. solve_decision. Defined.

#[global] Instance pyval_eq_dec : EqDecision pyval.
Proof. solve_decision. Defined.

Abbreviation dict := (gmap string pyval).

(** [d.get(key)] *)
Definition dict_get (d : dict) (key : string) : pyval :=
  match d !! key with
  | Some v => v
  | None => PNone
  end.

(** Truth value of a dictionary: it holds a key. *)
Definition dict_truthy (d : dict) : bool := negb (size d =? 0)%nat.

Definition of_date (o : option Datetime.datetime) : pyval :=
  match o with
  | Some d => PDate d
  | None => PNone
  end.

(* ===================================================================== *)
(** ** Floats, exceptions *)
(* ===================================================================== *)

(** The aspect ratio of the Region Detector is the quotient of two
    small integers, compared with 1.5 and 5.0: the comparison gives the
    same answer on the rationals. *)
Definition Qltb (a b : Q) : bool := negb (Qle_bool b a).

(** A Python [float], and a [numpy.float64], is an IEEE 754 binary64
    number: [spec_float] of the standard library in its canonical
    form, with the operations at precision 53 and maximal exponent 1024
    (round to nearest, ties to even). *)
Abbreviation pyfloat := SpecFloat.spec_float.
Abbreviation NaN := SpecFloat.S754_nan.

(** [float(z)] *)
Definition of_int (z : Z) : pyfloat :=
  SpecFloat.binary_normalize 53 1024 z 0 false.

(** [a < b], [a > b] and [a <= b]: false as soon as one side is NaN. *)
Definition flt (a b : pyfloat) : bool := SpecFloat.SFltb a b.
Definition fgt (a b : pyfloat) : bool := flt b a.
Definition fle (a b : pyfloat) : bool := SpecFloat.SFleb a b.

(** [a * b] and [a / b] *)
Definition fmul (a b : pyfloat) : pyfloat := SpecFloat.SFmul 53 1024 a b.
Definition fdiv (a b : pyfloat) : pyfloat := SpecFloat.SFdiv 53 1024 a b.

(** [np.mean(l)] of a list of integers: NaN for the empty list, else the
    sum of the entries as a float, divided by their number.  numpy adds
    the entries as [float64]; the word confidences of the engine are
    percentages, whose sums are integers far below 2^53 and so exact. *)
Definition np_mean (l : list Z) : pyfloat :=
  match l with
  | [] => NaN
  | _ :: _ => fdiv (of_int (fold_right Z.add 0 l)) (of_int (Z.of_nat (length l)))
  end.

Inductive exception : Type :=
| ValueError (msg : string)
| ValidationError (fields : list string).

Inductive result (A : Type) : Type :=
| Ok (a : A)
| Raise (e : exception).
Arguments Ok {A} a.
Arguments Raise {A} e.

Definition bind {A B : Type} (m : result A) (k : A -> result B) : result B :=
  match m with
  | Ok a => k a
  | Raise e => Raise e
  end.

Notation "'let*' x ':=' m 'in' k" := (bind m (fun x => k))
  (at level 10, x name, m at level 100, k at level 200).

(** *** pydantic field validation

    A [BaseModel] checks every declared field when it is built and
    raises one ValidationError naming the fields that were refused;
    keyword arguments that are not declared fields are dropped. *)

(** A field declared [Optional[str]]. *)
Definition opt_str (v : pyval) : option (option string) :=
  match v with
  | PNone => Some None
  | PStr s => Some (Some s)
  | PDate _ | PList _ => None
  end.

(** A field declared [Optional[datetime]], for the values the OCR
    service passes ([None] or a [datetime]). *)
Definition opt_datetime (v : pyval) : option (option Datetime.datetime) :=
  match v with
  | PNone => Some None
  | PDate d => Some (Some d)
  | PStr _ | PList _ => None
  end.

(** The names of the refused fields, in declaration order. *)
Definition refused {A : Type} (checks : list (string * option A)) : list string :=
  flat_map (fun c => match snd c with Some _ => [] | None => [fst c] end) checks.

(* ===================================================================== *)
(** ** app/config.py, app/models *)
(* ===================================================================== *)

Record Settings : Type := {
  OCR_CONFIDENCE_THRESHOLD : pyfloat
}.

(** [OCR_CONFIDENCE_THRESHOLD: float = 0.7]: the float nearest to 7/10,
    which is the correctly rounded quotient of 7 and 10. *)
Definition default_settings : Settings :=
  {| OCR_CONFIDENCE_THRESHOLD := fdiv (of_int 7) (of_int 10) |}.

Module OcrModels.

Record PassportStamp : Type := {
  text : string;
  confidence : pyfloat;
  country : option string;
  city : option string;
  entry_date : option Datetime.datetime;
  exit_date : option Datetime.datetime;
  stamp_type : option string;
  airport_code : option string;
  raw_data : option dict
}.

End OcrModels.

Module EmailModels.

Record EmailMessage : Type := {
  message_id : string;
  subject : string;
  sender : string;
  received_at : Datetime.datetime;
  body : string;
  parsed_data : option dict
}.

Record FlightConfirmation : Type := {
  email_id : string;
  flight_number : option string;
  departure_date : option string;
  departure_time : option string;
  arrival_date : option string;
  arrival_time : option string;
  departure_airport : option string;
  arrival_airport : option string;
  airline : option string;
  passenger_name : option string;
  booking_reference : option string;
  raw_data : option dict
}.

End EmailModels.

(* ===================================================================== *)
(** ** app/services/ocr_service.py *)
(* ===================================================================== *)

(** What the OCR service asks of [cv2], [numpy], [PIL] and
    [pytesseract].  An operation that may raise returns an option. *)
Class Imaging : Type := {
  ndarray : Type;
  contour : Type;
  (** [cv2.imread(path)]: [None] when the file cannot be decoded *)
  cv2_imread : string -> option ndarray;
  (** [cv2.cvtColor(image, cv2.COLOR_BGR2GRAY)] *)
  cv2_cvtColor_gray : ndarray -> ndarray;
  (** [cv2.Canny(image, lo, hi)] *)
  cv2_Canny : ndarray -> Z -> Z -> ndarray;
  (** [cv2.findContours(edges, RETR_EXTERNAL, CHAIN_APPROX_SIMPLE)[0]] *)
  cv2_findContours : ndarray -> list contour;
  (** [cv2.boundingRect(contour)]: x, y, w, h *)
  cv2_boundingRect : contour -> Z * Z * Z * Z;
  (** [gray[y:y+h, x:x+w]] *)
  crop : ndarray -> Z -> Z -> Z -> Z -> ndarray;
  (** [_enhance_image_for_ocr]: blur, adaptive threshold, morphological
      close and upscaling, all of them [cv2] calls on the pixels *)
  enhance_image_for_ocr : ndarray -> ndarray;
  (** [pytesseract.image_to_string(Image.fromarray(a), config=c)];
      [None] when it raises *)
  image_to_string : ndarray -> string -> option string;
  (** the ['conf'] column of [pytesseract.image_to_data(...)], each
      entry through [int]; [None] when the call or a conversion raises *)
  image_to_data_conf : ndarray -> string -> option (list Z)
}.

Module OCRService.
Import Py Re Datetime OcrModels.

(** The patterns of [_parse_stamp_text]. *)

(** [(\d{1,2}[/-]\d{1,2}[/-]\d{2,4})] *)
Definition pattern_date : regex :=
  Seq (Rep digit 1 (Some 2%nat))
      [OneOf "/-"; Rep digit 1 (Some 2%nat); OneOf "/-"; Rep digit 2 (Some 4%nat)].

(** [(\d{1,2}:\d{2})] *)
Definition pattern_time : regex :=
  Seq (Rep digit 1 (Some 2%nat)) [Chr ":"; Rep digit 2 (Some 2%nat)].

(** [([A-Z]{3})] *)
Definition pattern_airport_code : regex := Rep A_Z 3 (Some 3%nat).

(** [(UNITED STATES|CANADA|MEXICO|UNITED KINGDOM|FRANCE|GERMANY|ITALY|SPAIN|JAPAN|CHINA|AUSTRALIA)] *)
Definition pattern_country : regex :=
  Alts (Word "UNITED STATES")
       [Word "CANADA"; Word "MEXICO"; Word "UNITED KINGDOM"; Word "FRANCE";
        Word "GERMANY"; Word "ITALY"; Word "SPAIN"; Word "JAPAN"; Word "CHINA";
        Word "AUSTRALIA"].

(** [[A-Z][a-z]+(?:\s+[A-Z][a-z]+)*], in one capturing group *)
Definition pattern_city : regex :=
  Seq A_Z [Plus a_z; Star (Seq (Plus space) [A_Z; Plus a_z])].

(** [(ENTRY|EXIT|ARRIVAL|DEPARTURE)] *)
Definition pattern_entry_exit : regex :=
  Alts (Word "ENTRY") [Word "EXIT"; Word "ARRIVAL"; Word "DEPARTURE"].

(** [(TOURIST|BUSINESS|STUDENT|WORK|TRANSIT)] *)
Definition pattern_visa_type : regex :=
  Alts (Word "TOURIST") [Word "BUSINESS"; Word "STUDENT"; Word "WORK"; Word "TRANSIT"].

Definition date_formats : list string :=
  ["%m/%d/%Y"; "%m/%d/%y"; "%d/%m/%Y"; "%d/%m/%y"; "%Y-%m-%d"; "%d-%m-%Y"].

(** The loop of [_parse_date]: the first format that parses wins. *)
Fixpoint parse_date_with (formats : list string) (date_str : string)
  : option datetime :=
  match formats with
  | [] => None
  | fmt :: formats' =>
      match strptime date_str fmt with
      | Some d => Some d
      | None => parse_date_with formats' date_str
      end
  end.

Definition _parse_date (date_str : string) : option datetime :=
  parse_date_with date_formats date_str.

Definition _parse_stamp_text (text : string) : option dict :=
  let extracted_data : dict := ∅ in
  (* Extract dates *)
  let dates := findall false pattern_date text in
  let extracted_data :=
    match dates with
    | date0 :: _ =>
        if str_in "ENTRY" (upper text) || str_in "ARRIVAL" (upper text)
        then <["entry_date" := of_date (_parse_date date0)]> extracted_data
        else if str_in "EXIT" (upper text) || str_in "DEPARTURE" (upper text)
        then <["exit_date" := of_date (_parse_date date0)]> extracted_data
        else <["entry_date" := of_date (_parse_date date0)]> extracted_data
    | [] => extracted_data
    end in
  (* Extract country *)
  let extracted_data :=
    match search true pattern_country text with
    | Some country_match => <["country" := PStr (title country_match)]> extracted_data
    | None => extracted_data
    end in
  (* Extract city *)
  let extracted_data :=
    match search false pattern_city text with
    | Some city_match => <["city" := PStr (title city_match)]> extracted_data
    | None => extracted_data
    end in
  (* Extract stamp type *)
  let extracted_data :=
    if str_in "ENTRY" (upper text) || str_in "ARRIVAL" (upper text)
    then <["stamp_type" := PStr "entry"]> extracted_data
    else if str_in "EXIT" (upper text) || str_in "DEPARTURE" (upper text)
    then <["stamp_type" := PStr "exit"]> extracted_data
    else <["stamp_type" := PStr "unknown"]> extracted_data in
  (* Extract airport code *)
  let extracted_data :=
    match search false pattern_airport_code text with
    | Some airport_match => <["airport_code" := PStr airport_match]> extracted_data
    | None => extracted_data
    end in
  if dict_truthy extracted_data then Some extracted_data else None.

(** [50 < w < 300 and 30 < h < 150], then [1.5 < w / h < 5.0]. *)
Definition is_stamp_sized (w h : Z) : bool :=
  if (50 <? w) && (w <? 300) && (30 <? h) && (h <? 150)
  then
    let aspect_ratio := (inject_Z w / inject_Z h)%Q in
    Qltb (3 # 2) aspect_ratio && Qltb aspect_ratio (5 # 1)
  else false.

Record ocr_result : Type := {
  ocr_text : string;
  ocr_confidence : pyfloat;
  ocr_config : string
}.

Definition configs : list string := ["--psm 6"; "--psm 8"; "--psm 13"].

(** [max(results, key=lambda x: x['confidence'])] with [best] the
    maximum so far: a later item replaces it when its key is greater. *)
Fixpoint max_from (best : ocr_result) (results : list ocr_result) : ocr_result :=
  match results with
  | [] => best
  | r :: results' =>
      max_from (if fgt (ocr_confidence r) (ocr_confidence best) then r else best)
               results'
  end.

Section Service.
Context {imaging : Imaging}.
Variable settings : Settings.

(** The loop of [_detect_stamp_regions] over the contours. *)
Fixpoint filter_contours (contours : list contour) : list (Z * Z * Z * Z) :=
  match contours with
  | [] => []
  | c :: contours' =>
      let '(x, y, w, h) := cv2_boundingRect c in
      if is_stamp_sized w h
      then (x, y, w, h) :: filter_contours contours'
      else filter_contours contours'
  end.

Definition _detect_stamp_regions (image : ndarray) : list (Z * Z * Z * Z) :=
  let edges := cv2_Canny image 50 150 in
  let contours := cv2_findContours edges in
  filter_contours contours.

(** One pass of the loop over [configs]: the result appended, if any.
    Both calls are inside the [try]; an exception skips the pass. *)
Definition ocr_pass (pil_image : ndarray) (config : string) : option ocr_result :=
  match image_to_string pil_image config with
  | None => None
  | Some text =>
      match image_to_data_conf pil_image config with
      | None => None
      | Some conf =>
          if truthy (strip text)
          then Some {| ocr_text := strip text;
                       ocr_confidence := np_mean (filter (fun c => 0 <? c) conf);
                       ocr_config := config |}
          else None
      end
  end.

Definition run_configs (pil_image : ndarray) : list ocr_result :=
  flat_map (fun config => match ocr_pass pil_image config with
                          | Some r => [r]
                          | None => []
                          end) configs.

(** [PassportStamp(text=..., confidence=..., country=stamp_data.get('country'), ...)] *)
Definition new_PassportStamp (text : string) (confidence : pyfloat)
    (stamp_data : dict) : result PassportStamp :=
  let country := opt_str (dict_get stamp_data "country") in
  let city := opt_str (dict_get stamp_data "city") in
  let entry_date := opt_datetime (dict_get stamp_data "entry_date") in
  let exit_date := opt_datetime (dict_get stamp_data "exit_date") in
  let stamp_type := opt_str (dict_get stamp_data "stamp_type") in
  match country, city, entry_date, exit_date, stamp_type with
  | Some country, Some city, Some entry_date, Some exit_date, Some stamp_type =>
      Ok {| text := text; confidence := confidence;
            country := country; city := city;
            entry_date := entry_date; exit_date := exit_date;
            stamp_type := stamp_type;
            airport_code := None;
            raw_data := Some stamp_data |}
  | _, _, _, _, _ =>
      Raise (ValidationError
               (refused [("country", country); ("city", city)]
                ++ refused [("entry_date", entry_date); ("exit_date", exit_date)]
                ++ refused [("stamp_type", stamp_type)])%list)
  end.

Definition _process_stamp (stamp_image : ndarray) : result (option PassportStamp) :=
  let enhanced_image := enhance_image_for_ocr stamp_image in
  let ocr_results := run_configs enhanced_image in
  match ocr_results with
  | [] => Ok None
  | first :: others =>
      let best_result := max_from first others in
      if flt (ocr_confidence best_result)
             (fmul (OCR_CONFIDENCE_THRESHOLD settings) (of_int 100))
      then Ok None
      else
        match _parse_stamp_text (ocr_text best_result) with
        | Some stamp_data =>
            let* stamp := new_PassportStamp (ocr_text best_result)
                            (fdiv (ocr_confidence best_result) (of_int 100))
                            stamp_data in
            Ok (Some stamp)
        | None => Ok None
        end
  end.

(** The loop of [process_passport_image] over the regions. *)
Fixpoint process_regions (gray : ndarray) (stamp_regions : list (Z * Z * Z * Z))
  : result (list PassportStamp) :=
  match stamp_regions with
  | [] => Ok []
  | (x, y, w, h) :: stamp_regions' =>
      let stamp_image := crop gray x y w h in
      let* stamp_data := _process_stamp stamp_image in
      let* stamps := process_regions gray stamp_regions' in
      Ok (match stamp_data with
          | Some stamp => stamp :: stamps
          | None => stamps
          end)
  end.

Definition process_passport_image (image_path : string)
  : result (list PassportStamp) :=
  match cv2_imread image_path with
  | None => Raise (ValueError ("Could not load image: " ++ image_path))
  | Some image =>
      let gray := cv2_cvtColor_gray image in
      let stamp_regions := _detect_stamp_regions gray in
      process_regions gray stamp_regions
  end.

End Service.

(** [datetime.now()] is read from the wall clock: [clock n] is the
    [n]-th reading taken, and a computation that reads the clock maps
    the number of readings taken so far to its value and the new count. *)
Section Clock.
Variable clock : nat -> datetime.

Definition timed (A : Type) : Type := nat -> A * nat.
Definition ret {A : Type} (a : A) : timed A := fun n => (a, n).
Definition datetime_now : timed datetime := fun n => (clock n, S n).

(** Truth value of an optional date: every [datetime] is truthy. *)
Definition truthy_date (date : option datetime) : bool :=
  match date with
  | Some _ => true
  | None => false
  end.

(** [date and date > datetime.now()]: the clock is read only when the
    date is there. *)
Definition in_future (date : option datetime) : timed bool :=
  match date with
  | None => ret false
  | Some d => fun n => let '(now, n') := datetime_now n in (gt d now, n')
  end.

Definition validate_stamp_data (stamp : PassportStamp) : timed bool :=
  fun n =>
  (* Check if we have at least a date or country *)
  if negb (truthy_date (entry_date stamp))
     && negb (truthy_date (exit_date stamp))
     && negb (truthy_str (country stamp))
  then (false, n)
  else
    (* Check date validity *)
    let '(late, n) := in_future (entry_date stamp) n in
    if late then (false, n)
    else
      let '(late, n) := in_future (exit_date stamp) n in
      if late then (false, n)
      else
        (* Check if entry date is before exit date *)
        match entry_date stamp, exit_date stamp with
        | Some entry, Some exit =>
            if gt entry exit then (false, n) else (true, n)
        | _, _ => (true, n)
        end.

End Clock.

End OCRService.

(* ===================================================================== *)
(** ** app/services/email_service.py *)
(* ===================================================================== *)

Module EmailService.
Import Py Re EmailModels.

(** [[A-Z]{2,3}\s?\d{3,4}] *)
Definition pattern_flight_number : regex :=
  Seq (Rep A_Z 2 (Some 3%nat)) [Opt space; Rep digit 3 (Some 4%nat)].

(** [\d{1,2}[/-]\d{1,2}[/-]\d{2,4}] *)
Definition pattern_departure_date : regex :=
  Seq (Rep digit 1 (Some 2%nat))
      [OneOf "/-"; Rep digit 1 (Some 2%nat); OneOf "/-"; Rep digit 2 (Some 4%nat)].

(** [\d{1,2}:\d{2}\s?(?:AM|PM)?] *)
Definition pattern_departure_time : regex :=
  Seq (Rep digit 1 (Some 2%nat))
      [Chr ":"; Rep digit 2 (Some 2%nat); Opt space; Opt (Alt (Word "AM") (Word "PM"))].

(** [[A-Z]{3}] *)
Definition pattern_airport_code : regex := Rep A_Z 3 (Some 3%nat).

(** [American|Delta|United|Southwest|JetBlue|Alaska|Spirit|Frontier] *)
Definition pattern_airline : regex :=
  Alts (Word "American")
       [Word "Delta"; Word "United"; Word "Southwest"; Word "JetBlue";
        Word "Alaska"; Word "Spirit"; Word "Frontier"].

(** The [patterns] dictionary, each pattern inside one capturing group. *)
Definition patterns : list (string * regex) :=
  [("flight_number", pattern_flight_number);
   ("departure_date", pattern_departure_date);
   ("departure_time", pattern_departure_time);
   ("airport_code", pattern_airport_code);
   ("airline", pattern_airline)].

Definition confirmation_keywords : list string :=
  ["flight confirmation"; "booking confirmation"; "itinerary";
   "flight details"; "ticket confirmation"; "boarding pass"].

(** [matches[0] if len(matches) == 1 else matches] *)
Definition one_or_all (found : list string) : pyval :=
  match found with
  | [m] => PStr m
  | _ => PList found
  end.

(** The loop over [patterns.items()], from the dictionary built so far. *)
Fixpoint extract_with (pats : list (string * regex)) (body : string)
    (extracted_data : dict) : dict :=
  match pats with
  | [] => extracted_data
  | (key, pattern) :: pats' =>
      let found := findall true pattern body in
      extract_with pats' body
        (match found with
         | [] => extracted_data
         | _ :: _ => <[key := one_or_all found]> extracted_data
         end)
  end.

Definition extract (body : string) : dict := extract_with patterns body ∅.

Definition is_confirmation (email : EmailMessage) : bool :=
  existsb (fun keyword => str_in keyword (lower (subject email))
                          || str_in keyword (lower (body email)))
          confirmation_keywords.

(** [FlightConfirmation(email_id=..., flight_number=..., departure_date=...,
    departure_time=..., airport_code=..., airline=..., raw_data=...)]:
    [airport_code] is not a field of the model and is dropped. *)
Definition new_FlightConfirmation (email_id : string)
    (flight_number departure_date departure_time airport_code airline : pyval)
    (raw_data : dict) : result FlightConfirmation :=
  let flight_number := opt_str flight_number in
  let departure_date := opt_str departure_date in
  let departure_time := opt_str departure_time in
  let airline := opt_str airline in
  match flight_number, departure_date, departure_time, airline with
  | Some flight_number, Some departure_date, Some departure_time, Some airline =>
      Ok {| email_id := email_id;
            flight_number := flight_number;
            departure_date := departure_date;
            departure_time := departure_time;
            arrival_date := None;
            arrival_time := None;
            departure_airport := None;
            arrival_airport := None;
            airline := airline;
            passenger_name := None;
            booking_reference := None;
            raw_data := Some raw_data |}
  | _, _, _, _ =>
      Raise (ValidationError
               (refused [("flight_number", flight_number);
                         ("departure_date", departure_date);
                         ("departure_time", departure_time);
                         ("airline", airline)]))
  end.

Definition parse_flight_confirmation (email : EmailMessage)
  : result (option FlightConfirmation) :=
  (* Extract information using regex *)
  let extracted_data := extract (body email) in
  (* Try to identify if this is a flight confirmation *)
  if is_confirmation email && dict_truthy extracted_data
  then
    let* confirmation :=
      new_FlightConfirmation (message_id email)
        (dict_get extracted_data "flight_number")
        (dict_get extracted_data "departure_date")
        (dict_get extracted_data "departure_time")
        (dict_get extracted_data "airport_code")
        (dict_get extracted_data "airline")
        extracted_data in
    Ok (Some confirmation)
  else Ok None.

End EmailService.

(* ===================================================================== *)
(** ** The two conditions of the Email Parser, in the specification's words *)
(* ===================================================================== *)

Module EmailSpec.
Import Py Re EmailModels EmailService.

(** [needle] occurs in [hay]. *)
Definition occurs_in (needle hay : string) : Prop :=
  exists before after : ctext, chars hay = (before ++ chars needle ++ after)%list.

(** The subject or the body, lower-cased, holds one of the keywords. *)
Definition mentions_keyword (email : EmailMessage) : Prop :=
  exists keyword,
    In keyword confirmation_keywords
    /\ (occurs_in keyword (lower (subject email))
        \/ occurs_in keyword (lower (body email))).

(** One of the five patterns has a match in the body. *)
Definition some_pattern_matches (email : EmailMessage) : Prop :=
  exists key pattern,
    In (key, pattern) patterns /\ findall true pattern (body email) <> [].

End EmailSpec.

(* ===================================================================== *)
(** ** Test doubles for the collaborators *)
(* ===================================================================== *)

Module Fixtures.
Import Py Datetime EmailModels.

(** An imaging back end for worked examples: an image is given by the
    bounding boxes of its contours, a file name that is empty cannot be
    read, and the OCR engine reads the same words under every
    configuration, with a confidence column that depends on it. *)
Definition stub_imaging : Imaging := {|
  ndarray := list (Z * Z * Z * Z);
  contour := Z * Z * Z * Z;
  cv2_imread := fun path =>
    if truthy path then Some [(10, 10, 300, 100); (0, 0, 40, 20)] else None;
  cv2_cvtColor_gray := fun image => image;
  cv2_Canny := fun image _ _ => image;
  cv2_findContours := fun edges => edges;
  cv2_boundingRect := fun c => c;
  crop := fun image _ _ _ _ => image;
  enhance_image_for_ocr := fun image => image;
  image_to_string := fun _ config =>
    if String.eqb config "--psm 13" then None else Some " ENTRY 03/14/2023 ";
  image_to_data_conf := fun _ config =>
    if String.eqb config "--psm 6" then Some [-1; 62; 58]
    else Some [-1; 40]
|}.

(** An imaging back end whose engine reads the same words under every
    configuration, but under the first one reports no word with a
    positive confidence. *)
Definition unscored_imaging : Imaging := {|
  ndarray := list (Z * Z * Z * Z);
  contour := Z * Z * Z * Z;
  cv2_imread := fun path =>
    if truthy path then Some [(10, 10, 120, 60)] else None;
  cv2_cvtColor_gray := fun image => image;
  cv2_Canny := fun image _ _ => image;
  cv2_findContours := fun edges => edges;
  cv2_boundingRect := fun c => c;
  crop := fun image _ _ _ _ => image;
  enhance_image_for_ocr := fun image => image;
  image_to_string := fun _ _ => Some "ENTRY 03/14/2023";
  image_to_data_conf := fun _ config =>
    if String.eqb config "--psm 6" then Some [-1; 0; 0]
    else if String.eqb config "--psm 8" then Some [-1; 40]
    else Some [-1; 30]
|}.

Definition email (subject body : string) : EmailMessage := {|
  message_id := "18c2f0a1";
  subject := subject;
  sender := "no-reply@example.com";
  received_at := mk_datetime 2023 3 1 9 30 0 0;
  body := body;
  parsed_data := None
|}.

(** The stamp text of the worked scenario, and the dictionary the
    extractor builds for it. *)
Definition scenario_text : string := "ENTRY USA LOS ANGELES 03/14/2023 LAX".

Definition scenario_data : dict :=
  <["airport_code" := PStr "ENT"]>
    (<["stamp_type" := PStr "entry"]>
       (<["entry_date" := PDate (mk_datetime 2023 3 14 0 0 0 0)]> ∅)).

End Fixtures.

(* ===================================================================== *)
(** ** app/services/email_service.py: the body of a Gmail message *)
(* ===================================================================== *)

Module EmailBody.
Import Py.

(** One entry of [payload['parts']]: its [mimeType], and
    [part['body']['data']] when the part has it. *)
Record part : Type := {
  part_mimeType : string;
  part_data : option string
}.

(** A Gmail [payload]: its own [mimeType] and data, and its [parts] when
    the key is there. *)
Record payload : Type := {
  mimeType : string;
  data : option string;
  parts : option (list part)
}.

Section Soup.
(** [BeautifulSoup(data, 'html.parser').get_text()] *)
Variable get_text : string -> string.

(** The loop over [payload['parts']], from the body built so far;
    [None] stands for the KeyError of a text part without data. *)
Fixpoint extract_parts (ps : list part) (body : string) : option string :=
  match ps with
  | [] => Some body
  | p :: ps' =>
      if String.eqb (part_mimeType p) "text/plain" then
        match part_data p with
        | Some data => extract_parts ps' (body ++ data)
        | None => None
        end
      else if String.eqb (part_mimeType p) "text/html" then
        match part_data p with
        | Some data => extract_parts ps' (body ++ get_text data)
        | None => None
        end
      else extract_parts ps' body
  end.

Definition _extract_email_body (payload : payload) : option string :=
  let body := "" in
  match parts payload with
  | Some ps => extract_parts ps body
  | None =>
      if String.eqb (mimeType payload) "text/plain" then data payload
      else if String.eqb (mimeType payload) "text/html" then
        option_map get_text (data payload)
      else Some body
  end.

(** The text a part stands for: its data, through [get_text] when the
    part is HTML. *)
Definition part_text (p : part) : string :=
  match part_data p with
  | Some data =>
      if String.eqb (part_mimeType p) "text/plain" then data else get_text data
  | None => ""
  end.

End Soup.

(** A part the loop reads: plain text or HTML. *)
Definition is_text_part (p : part) : bool :=
  String.eqb (part_mimeType p) "text/plain"
  || String.eqb (part_mimeType p) "text/html".

(** The part has [body] data. *)
Definition has_data (p : part) : bool :=
  match part_data p with
  | Some _ => true
  | None => false
  end.

(** The strings of a list, one after the other. *)
Definition join (l : list string) : string := fold_right String.append "" l.

End EmailBody.

(* ===================================================================== *)
(** ** app/services/google_cloud_service.py *)
(* ===================================================================== *)

Module GoogleCloudService.
Import Py Re Datetime.

(** The values of the dictionary [_parse_stamp_text_vision] returns. *)
Inductive jsonval : Type :=
| JNull
| JStr (s : string)
| JNum (q : Q).

Abbreviation jdict := (gmap string jsonval).

(** [s.replace(old, new)]: the occurrences of [old] from left to right,
    not overlapping; [skip] counts the characters of the current
    occurrence still to pass. *)
Fixpoint replace_from (old new : ctext) (skip : nat) (t : ctext) : ctext :=
  match t with
  | [] => []
  | c :: t' =>
      match skip with
      | S k => replace_from old new k t'
      | O =>
          if startswith old t
          then (new ++ replace_from old new (Nat.pred (length old)) t')%list
          else c :: replace_from old new O t'
      end
  end.
Definition replace (s old new : string) : string :=
  match chars old with
  | [] => str (chars new ++ flat_map (fun c => c :: chars new) (chars s))%list
  | _ :: _ => str (replace_from (chars old) (chars new) O (chars s))
  end.

(** The patterns of [_parse_stamp_text_vision]: the date, airport code
    and country patterns of the OCR service, written out again there. *)
Definition pattern_date : regex :=
  Seq (Rep digit 1 (Some 2%nat))
      [OneOf "/-"; Rep digit 1 (Some 2%nat); OneOf "/-"; Rep digit 2 (Some 4%nat)].
Definition pattern_airport_code : regex := Rep A_Z 3 (Some 3%nat).
Definition pattern_country : regex :=
  Alts (Word "UNITED STATES")
       [Word "CANADA"; Word "MEXICO"; Word "UNITED KINGDOM"; Word "FRANCE";
        Word "GERMANY"; Word "ITALY"; Word "SPAIN"; Word "JAPAN"; Word "CHINA";
        Word "AUSTRALIA"].

Definition vision_date_formats : list string :=
  ["%m/%d/%Y"; "%m/%d/%y"; "%d/%m/%Y"; "%d/%m/%y"].

(** The loop over the formats: the first one that parses, then [break]. *)
Fixpoint first_format (formats : list string) (date_str : string)
  : option datetime :=
  match formats with
  | [] => None
  | fmt :: formats' =>
      match strptime date_str fmt with
      | Some parsed_date => Some parsed_date
      | None => first_format formats' date_str
      end
  end.

Section Service.
(** [parsed_date.strftime('%Y-%m-%d')] *)
Variable strftime_Ymd : datetime -> string.
(** [settings.GCS_BUCKET_NAME] *)
Variable GCS_BUCKET_NAME : string.

Definition _parse_stamp_text_vision (text : string) : jdict :=
  let extracted_data : jdict :=
    <["country" := JNull]> (<["city" := JNull]> (<["entry_date" := JNull]>
    (<["exit_date" := JNull]> (<["airport_code" := JNull]>
    (<["stamp_type" := JStr "unknown"]> (<["confidence" := JNum (1 # 2)]> ∅)))))) in
  (* Extract dates *)
  let dates := findall false pattern_date text in
  let extracted_data :=
    match dates with
    | date_str :: _ =>
        match first_format vision_date_formats date_str with
        | Some parsed_date =>
            if str_in "ENTRY" (upper text) || str_in "ARRIVAL" (upper text)
            then <["entry_date" := JStr (strftime_Ymd parsed_date)]> extracted_data
            else if str_in "EXIT" (upper text) || str_in "DEPARTURE" (upper text)
            then <["exit_date" := JStr (strftime_Ymd parsed_date)]> extracted_data
            else <["entry_date" := JStr (strftime_Ymd parsed_date)]> extracted_data
        | None => extracted_data
        end
    | [] => extracted_data
    end in
  (* Extract country *)
  let extracted_data :=
    match search true pattern_country text with
    | Some country_match => <["country" := JStr (title country_match)]> extracted_data
    | None => extracted_data
    end in
  (* Extract airport code *)
  let extracted_data :=
    match search false pattern_airport_code text with
    | Some airport_match => <["airport_code" := JStr airport_match]> extracted_data
    | None => extracted_data
    end in
  (* Determine stamp type *)
  if str_in "ENTRY" (upper text) || str_in "ARRIVAL" (upper text)
  then <["stamp_type" := JStr "entry"]> extracted_data
  else if str_in "EXIT" (upper text) || str_in "DEPARTURE" (upper text)
  then <["stamp_type" := JStr "exit"]> extracted_data
  else extracted_data.

(** [f"gs://{settings.GCS_BUCKET_NAME}/"] *)
Definition gcs_prefix : string := "gs://" ++ GCS_BUCKET_NAME ++ "/".

(** The blob name and the path returned by [upload_file_to_gcs];
    [today] is [datetime.now().strftime('%Y/%m/%d')]. *)
Definition upload_blob_name (today filename : string) : string :=
  "uploads/" ++ today ++ "/" ++ filename.
Definition upload_path (today filename : string) : string :=
  gcs_prefix ++ upload_blob_name today filename.

(** The blob name [download_file_from_gcs] and [delete_file_from_gcs]
    ask the bucket for. *)
Definition download_blob_name (gcs_path : string) : string :=
  replace gcs_path gcs_prefix "".

End Service.

(** One entry of [response.text_annotations]. *)
Record annotation : Type := {
  description : string;
  score : Q;
  vertices : list (Z * Z)
}.

Record vision_response : Type := {
  text_annotations : list annotation;
  error_message : string
}.

Record vision_result : Type := {
  vision_text : string;
  vision_confidence : Q;
  vision_annotations : list annotation
}.

(** [sum(confidence_scores) / len(confidence_scores) if confidence_scores else 0],
    with the scores as the rationals they stand for: the float mean
    differs from this one by its rounding. *)
Definition avg_confidence (confidence_scores : list Q) : Q :=
  match confidence_scores with
  | [] => 0
  | _ :: _ =>
      (fold_left Qplus confidence_scores 0
       / inject_Z (Z.of_nat (length confidence_scores)))%Q
  end.

(** A value of the OCR dictionary as the Vision parser would write it:
    a date through [strftime], a missing key as null. *)
Definition to_json (strftime_Ymd : datetime -> string) (v : option pyval) : jsonval :=
  match v with
  | Some (PStr s) => JStr s
  | Some (PDate d) => JStr (strftime_Ymd d)
  | Some PNone | Some (PList _) | None => JNull
  end.

(** [process_image_with_vision], from the response of the API;
    the error case carries the message of the exception raised. *)
Definition process_image_with_vision (response : vision_response)
  : vision_result + string :=
  let texts := text_annotations response in
  if truthy (error_message response)
  then inr ("Vision API error: " ++ error_message response)
  else
    let extracted_text :=
      match texts with
      | first :: _ => description first
      | [] => ""
      end in
    let confidence_scores := map score (tail texts) in
    inl {| vision_text := extracted_text;
           vision_confidence := avg_confidence confidence_scores;
           vision_annotations := tail texts |}.

End GoogleCloudService.

(* ===================================================================== *)
(** ** Vocabulary used to state the properties *)
(* ===================================================================== *)

Module StampSpec.
Import Py.

(** The direction the two stamp parsers read off a text. *)
Definition direction (text : string) : string :=
  if str_in "ENTRY" (upper text) || str_in "ARRIVAL" (upper text) then "entry"
  else if str_in "EXIT" (upper text) || str_in "DEPARTURE" (upper text) then "exit"
  else "unknown".

(** The country vocabulary, as [title] writes it. *)
Definition country_names : list string :=
  ["United States"; "Canada"; "Mexico"; "United Kingdom"; "France";
   "Germany"; "Italy"; "Spain"; "Japan"; "China"; "Australia"].

(** The words of the country pattern. *)
Definition country_words : list string :=
  ["UNITED STATES"; "CANADA"; "MEXICO"; "UNITED KINGDOM"; "FRANCE";
   "GERMANY"; "ITALY"; "SPAIN"; "JAPAN"; "CHINA"; "AUSTRALIA"].

(** [a <= b] on datetimes. *)
Definition le (a b : Datetime.datetime) : bool := negb (Datetime.gt a b).

(** The size test of the Region Detector on integers alone. *)
Definition is_stamp_sized_int (w h : Z) : bool :=
  (50 <? w) && (w <? 300) && (30 <? h) && (h <? 150)
  && (3 * h <? 2 * w) && (w <? 5 * h).

(** The airline names of the Email Parser. *)
Definition airline_names : list string :=
  ["American"; "Delta"; "United"; "Southwest"; "JetBlue"; "Alaska";
   "Spirit"; "Frontier"].

(** The string fields of a confirmation that the parser fills, with
    their patterns. *)
Definition string_fields : list (string * Re.regex) :=
  [("flight_number", EmailService.pattern_flight_number);
   ("departure_date", EmailService.pattern_departure_date);
   ("departure_time", EmailService.pattern_departure_time);
   ("airline", EmailService.pattern_airline)].

(** The decimal digit [k], and numbers written with two and with four
    digits. *)
Definition digit_char (k : Z) : ascii := ascii_of_N (48 + Z.to_N k).
Definition two_digits (n : Z) : ctext :=
  [digit_char (n / 10); digit_char (n mod 10)].
Definition four_digits (n : Z) : ctext :=
  [digit_char (n / 1000); digit_char (n / 100 mod 10);
   digit_char (n / 10 mod 10); digit_char (n mod 10)].

(** The date text AA/BB/YYYY. *)
Definition slash_date (a b y : Z) : string :=
  str (two_digits a ++ "/"%char :: two_digits b ++ "/"%char :: four_digits y)%list.

(** The date text YYYY-MM-DD. *)
Definition iso_date (y m d : Z) : string :=
  str (four_digits y ++ "-"%char :: two_digits m ++ "-"%char :: two_digits d)%list.

(** A clock that shows the same time at every reading. *)
Definition at_time (now : Datetime.datetime) : nat -> Datetime.datetime :=
  fun _ => now.

End StampSpec.

(* ===================================================================== *)
(** ** The library model on sample inputs *)
(* ===================================================================== *)

Section LibraryModel.
Import Py Re Datetime.

Lemma Qltb_lt (a b : Q) : Qltb a b = true <-> (a < b)%Q.
Proof.
  unfold Qltb. rewrite negb_true_iff. split.
  - intros H. apply Qnot_le_lt. intros Hle.
    apply Qle_bool_iff in Hle. congruence.
  - intros H. destruct (Qle_bool b a) eqn:E; [|reflexivity].
    apply Qle_bool_iff in E. exfalso. exact (Qlt_not_le _ _ H E).
Qed.

Ltac float_cases a :=
  destruct a as [[|]|[|]| |[|] ? ?].

Ltac order_step :=
  match goal with
  | H : context [Z.compare ?x ?y] |- _ => destruct (Z.compare_spec x y)
  | |- context [Z.compare ?x ?y] => destruct (Z.compare_spec x y)
  | H : context [PosDef.Pos.compare_cont Eq ?m ?n] |- _ =>
      change (PosDef.Pos.compare_cont Eq m n) with (Pos.compare m n) in *;
      destruct (Pos.compare_spec m n)
  | |- context [PosDef.Pos.compare_cont Eq ?m ?n] =>
      change (PosDef.Pos.compare_cont Eq m n) with (Pos.compare m n) in *;
      destruct (Pos.compare_spec m n)
  end; simpl in *; try discriminate; try reflexivity.

Ltac float_order := repeat order_step; try lia.

Lemma flt_irrefl (a : pyfloat) : flt a a = false.
Proof.
  unfold flt, SpecFloat.SFltb. float_cases a; simpl; try reflexivity; float_order.
Qed.

Lemma flt_NaN_r (a : pyfloat) : flt a NaN = false.
Proof. destruct a; reflexivity. Qed.

Lemma flt_trans (a b c : pyfloat) :
  flt a b = true -> flt b c = true -> flt a c = true.
Proof.
  unfold flt, SpecFloat.SFltb.
  float_cases a; float_cases b; simpl; try discriminate;
    float_cases c; simpl; try discriminate; try reflexivity;
    intros; float_order.
Qed.

(** With a number in the middle, [not <] is transitive too. *)
Lemma flt_neg_trans (a b c : pyfloat) :
  b <> NaN -> flt a b = false -> flt b c = false -> flt a c = false.
Proof.
  unfold flt, SpecFloat.SFltb. intros Hb.
  float_cases a; float_cases b; try (exfalso; apply Hb; reflexivity); simpl;
    try discriminate;
    float_cases c; simpl; try discriminate; try reflexivity;
    intros; float_order.
Qed.

(** Two numbers are comparable: when the first is not below the second,
    the second is at most the first. *)
Lemma fle_of_not_flt (a b : pyfloat) :
  a <> NaN -> b <> NaN -> flt a b = false -> fle b a = true.
Proof.
  unfold flt, fle, SpecFloat.SFltb, SpecFloat.SFleb. intros Ha Hb.
  float_cases a; try (exfalso; apply Ha; reflexivity);
    float_cases b; try (exfalso; apply Hb; reflexivity); simpl;
    try discriminate; try reflexivity;
    intros; float_order.
Qed.

(** [0.7 * 100] is [70.0], but [0.55 * 100] is above [55.0]. *)
Example threshold_percent_default :
  fmul (OCR_CONFIDENCE_THRESHOLD default_settings) (of_int 100) = of_int 70.
Proof. reflexivity. Qed.

Example threshold_percent_rounds_up :
  flt (of_int 55) (fmul (fdiv (of_int 55) (of_int 100)) (of_int 100)) = true.
Proof. reflexivity. Qed.

(** The float after 0.35, which Python writes 0.35000000000000003: a
    hundred times it is [35.0] again. *)
Example threshold_percent_rounds_down :
  let t := SpecFloat.SFsucc 53 1024 (fdiv (of_int 35) (of_int 100)) in
  flt (fdiv (of_int 35) (of_int 100)) t = true
  /\ fmul t (of_int 100) = of_int 35.
Proof. split; reflexivity. Qed.

Example np_mean_two : np_mean [62; 58] = of_int 60.
Proof. reflexivity. Qed.

Example np_mean_none : np_mean [] = NaN.
Proof. reflexivity. Qed.

Example title_words : title "UNITED sTATES o'neil 3ab" = "United States O'Neil 3Ab".
Proof. reflexivity. Qed.

Example strip_blanks : strip " ENTRY 03/14/2023 " = "ENTRY 03/14/2023".
Proof. reflexivity. Qed.

Example findall_dates :
  findall false OCRService.pattern_date "in 03/14/2023, out 1-2-345678"
  = ["03/14/2023"; "1-2-3456"].
Proof. vm_compute. reflexivity. Qed.

Example search_city :
  search false OCRService.pattern_city "Arrived New York united states"
  = Some "Arrived New York".
Proof. vm_compute. reflexivity. Qed.

Example findall_ignorecase :
  findall true EmailService.pattern_airport_code "Flights AA 123 and BB 456"
  = ["Fli"; "ght"; "and"].
Proof. vm_compute. reflexivity. Qed.

Example findall_time :
  findall true EmailService.pattern_departure_time "Flight UA 512 at 10:30 PM"
  = ["10:30 PM"].
Proof. vm_compute. reflexivity. Qed.

Example strptime_month_first :
  strptime "03/14/2023" "%m/%d/%Y" = Some (mk_datetime 2023 3 14 0 0 0 0).
Proof. vm_compute. reflexivity. Qed.

Example strptime_month_14 : strptime "14/03/2023" "%m/%d/%Y" = None.
Proof. vm_compute. reflexivity. Qed.

Example strptime_text_left_over : strptime "03/14/2023" "%m/%d/%y" = None.
Proof. vm_compute. reflexivity. Qed.

Example strptime_no_such_day : strptime "02/30/2023" "%m/%d/%Y" = None.
Proof. vm_compute. reflexivity. Qed.

Example strptime_year_zero : strptime "0000-01-01" "%Y-%m-%d" = None.
Proof. vm_compute. reflexivity. Qed.

Example parse_date_day_first :
  OCRService._parse_date "14/03/2023" = Some (mk_datetime 2023 3 14 0 0 0 0).
Proof. vm_compute. reflexivity. Qed.

Example parse_date_two_digit_year :
  OCRService._parse_date "03/14/23" = Some (mk_datetime 2023 3 14 0 0 0 0).
Proof. vm_compute. reflexivity. Qed.

Example parse_date_dashes_month_first : OCRService._parse_date "03-14-2023" = None.
Proof. vm_compute. reflexivity. Qed.

Example parse_date_three_digit_year : OCRService._parse_date "1/2/345" = None.
Proof. vm_compute. reflexivity. Qed.

End LibraryModel.

(* ===================================================================== *)
(** ** Properties of the Field Extractor *)
(* ===================================================================== *)

Section FieldExtractor.
Import Py Re Datetime OCRService Fixtures.

Lemma dict_truthy_insert (key : string) (v : pyval) (d : dict) :
  dict_truthy (<[key := v]> d) = true.
Proof.
  unfold dict_truthy.
  destruct (size (<[key := v]> d)) eqn:E; [|reflexivity].
  apply map_size_empty_iff in E.
  exfalso. exact (insert_non_empty d key v E).
Qed.

Lemma dict_truthy_empty : dict_truthy (∅ : dict) = false.
Proof. reflexivity. Qed.

(** Whatever the text, the dictionary of [_parse_stamp_text] holds the
    key [stamp_type]. *)
Lemma _parse_stamp_text_stamp_type (text : string) :
  exists d kind,
    _parse_stamp_text text = Some d /\ d !! "stamp_type" = Some (PStr kind).
Proof.
  unfold _parse_stamp_text.
  set (d0 := match findall false pattern_date text with [] => _ | _ => _ end).
  set (d1 := match search true pattern_country text with Some _ => _ | None => _ end).
  set (d2 := match search false pattern_city text with Some _ => _ | None => _ end).
  set (kind := if str_in "ENTRY" (upper text) || str_in "ARRIVAL" (upper text)
               then "entry"
               else if str_in "EXIT" (upper text) || str_in "DEPARTURE" (upper text)
               then "exit" else "unknown").
  set (d3 := if str_in "ENTRY" (upper text) || str_in "ARRIVAL" (upper text)
             then _ else _).
  assert (E3 : d3 = <["stamp_type" := PStr kind]> d2).
  { unfold d3, kind.
    destruct (str_in "ENTRY" (upper text) || str_in "ARRIVAL" (upper text));
      [reflexivity|].
    destruct (str_in "EXIT" (upper text) || str_in "DEPARTURE" (upper text));
      reflexivity. }
  destruct (search false pattern_airport_code text) as [code|].
  - rewrite dict_truthy_insert. eexists _, kind. split; [reflexivity|].
    rewrite lookup_insert_ne by discriminate.
    rewrite E3. apply lookup_insert_eq.
  - rewrite E3, dict_truthy_insert. eexists _, kind. split; [reflexivity|].
    apply lookup_insert_eq.
Qed.

(** The extractor never answers [None]. *)
Lemma _parse_stamp_text_is_Some (text : string) :
  _parse_stamp_text text <> None.
Proof.
  destruct (_parse_stamp_text_stamp_type text) as (d & kind & E & _).
  rewrite E. discriminate.
Qed.

Lemma scenario_data_extracted :
  _parse_stamp_text scenario_text = Some scenario_data.
Proof. compute_done. Qed.

(** C1 (as the code has it).  On the text
    "ENTRY USA LOS ANGELES 03/14/2023 LAX" the extractor returns exactly
    three keys: [entry_date] 2023-03-14, [stamp_type] "entry" and
    [airport_code] "ENT", the first three consecutive capitals of the
    text.  No [country] is found (the vocabulary has UNITED STATES, not
    USA) and no [city] (the text has no capital followed by small
    letters). *)
Theorem parse_stamp_text_scenario :
  exists d,
    _parse_stamp_text scenario_text = Some d
    /\ d !! "entry_date" = Some (PDate (mk_datetime 2023 3 14 0 0 0 0))
    /\ d !! "stamp_type" = Some (PStr "entry")
    /\ d !! "airport_code" = Some (PStr "ENT")
    /\ d !! "country" = None
    /\ d !! "city" = None
    /\ d !! "exit_date" = None
    /\ size d = 3%nat.
Proof.
  exists scenario_data.
  split; [compute_done|].
  split; [compute_done|].
  split; [compute_done|].
  split; [compute_done|].
  split; [compute_done|].
  split; [compute_done|].
  split; compute_done.
Qed.

(** C1 (as the spec states it) fails: the candidate for the scenario
    text has neither the country "United States" nor the airport code
    "LAX". *)
Lemma scenario_text_no_country_no_LAX :
  ~ (exists d city,
       _parse_stamp_text scenario_text = Some d
       /\ d !! "country" = Some (PStr "United States")
       /\ d !! "city" = Some (PStr city)
       /\ d !! "entry_date" = Some (PDate (mk_datetime 2023 3 14 0 0 0 0))
       /\ d !! "stamp_type" = Some (PStr "entry")
       /\ d !! "airport_code" = Some (PStr "LAX")).
Proof.
  intros (d & city & E & Hcountry & _).
  rewrite scenario_data_extracted in E.
  injection E as <-.
  assert (Hnone : scenario_data !! "country" = None) by compute_done.
  rewrite Hnone in Hcountry. discriminate.
Qed.

(** C2.  On the empty text nothing is extracted, and the extractor
    still returns a dictionary: the one key [stamp_type] with the value
    "unknown". *)
Theorem parse_stamp_text_empty_text :
  _parse_stamp_text "" = Some {["stamp_type" := PStr "unknown"]}.
Proof. compute_done. Qed.

End FieldExtractor.

(* ===================================================================== *)
(** ** Properties of the Region Detector *)
(* ===================================================================== *)

Section RegionDetector.
Import Py OCRService.
Context {imaging : Imaging}.

(** The test of [_detect_stamp_regions] in arithmetic terms: every
    bound is strict. *)
Lemma is_stamp_sized_spec (w h : Z) :
  is_stamp_sized w h = true <->
  50 < w < 300 /\ 30 < h < 150
  /\ (3 # 2 < inject_Z w / inject_Z h)%Q
  /\ (inject_Z w / inject_Z h < 5 # 1)%Q.
Proof.
  unfold is_stamp_sized.
  destruct ((50 <? w) && (w <? 300) && (30 <? h) && (h <? 150)) eqn:E.
  - rewrite !andb_true_iff, !Z.ltb_lt in E.
    rewrite andb_true_iff, !Qltb_lt. intuition lia.
  - split; [discriminate|]. intros (Hw & Hh & _).
    assert (E' : (50 <? w) && (w <? 300) && (30 <? h) && (h <? 150) = true).
    { rewrite !andb_true_iff, !Z.ltb_lt. lia. }
    congruence.
Qed.

Lemma filter_contours_In (contours : list contour) (x y w h : Z) :
  In (x, y, w, h) (filter_contours contours) <->
  (exists c, In c contours /\ cv2_boundingRect c = (x, y, w, h))
  /\ is_stamp_sized w h = true.
Proof.
  induction contours as [|c contours IH]; simpl.
  - split; [tauto|]. intros [(c & [] & _) _].
  - destruct (cv2_boundingRect c) as [[[x' y'] w'] h'] eqn:Ec.
    destruct (is_stamp_sized w' h') eqn:Es; simpl; rewrite IH.
    + split.
      * intros [E | [(c0 & Hin & Hc0) Hs]].
        -- injection E as <- <- <- <-. split; [|exact Es].
           exists c. split; [left; reflexivity | exact Ec].
        -- split; [|exact Hs]. exists c0. split; [right; exact Hin | exact Hc0].
      * intros [(c0 & [<- | Hin] & Hc0) Hs].
        -- left. congruence.
        -- right. split; [|exact Hs]. exists c0. split; assumption.
    + split.
      * intros [(c0 & Hin & Hc0) Hs]. split; [|exact Hs].
        exists c0. split; [right; exact Hin | exact Hc0].
      * intros [(c0 & [<- | Hin] & Hc0) Hs].
        -- rewrite Ec in Hc0. injection Hc0 as <- <- <- <-. congruence.
        -- split; [|exact Hs]. exists c0. split; assumption.
Qed.

(** C4 (as the code has it).  The bounding box of a contour of the edge
    image is in the output exactly when 50 < width < 300,
    30 < height < 150 and 1.5 < width/height < 5.0, all bounds strict;
    a box of 40 by 20 is never in the output. *)
Theorem detect_stamp_regions_strict_bounds (image : ndarray) :
  (forall (c : contour) (x y w h : Z),
      In c (cv2_findContours (cv2_Canny image 50 150)) ->
      cv2_boundingRect c = (x, y, w, h) ->
      In (x, y, w, h) (_detect_stamp_regions image) <->
      50 < w < 300 /\ 30 < h < 150
      /\ (3 # 2 < inject_Z w / inject_Z h)%Q
      /\ (inject_Z w / inject_Z h < 5 # 1)%Q)
  /\ (forall x y : Z, ~ In (x, y, 40, 20) (_detect_stamp_regions image)).
Proof.
  unfold _detect_stamp_regions. split.
  - intros c x y w h Hin Hc.
    rewrite filter_contours_In, is_stamp_sized_spec. split.
    + intros [_ H]. exact H.
    + intros H. split; [|exact H]. exists c. split; assumption.
  - intros x y H. apply filter_contours_In in H as [_ H]. discriminate H.
Qed.

End RegionDetector.

(** C4 (as the spec states it, with closed intervals) fails: a contour
    whose box is 300 by 100 has its width in [50,300], its height in
    [30,150] and its ratio 3 in [1.5,5.0], and is left out. *)
Lemma detect_stamp_regions_closed_bounds_fail :
  let image : @ndarray Fixtures.stub_imaging := [(10, 10, 300, 100)] in
  let c : @contour Fixtures.stub_imaging := (10, 10, 300, 100) in
  In c (cv2_findContours (cv2_Canny image 50 150))
  /\ cv2_boundingRect c = (10, 10, 300, 100)
  /\ (50 <= 300 <= 300 /\ 30 <= 100 <= 150
      /\ (3 # 2 <= inject_Z 300 / inject_Z 100)%Q
      /\ (inject_Z 300 / inject_Z 100 <= 5 # 1)%Q)
  /\ ~ In (10, 10, 300, 100) (OCRService._detect_stamp_regions image).
Proof.
  simpl. split; [left; reflexivity|]. split; [reflexivity|].
  split.
  - split; [lia|]. split; [lia|]. split; vm_compute; discriminate.
  - vm_compute. intros [].
Qed.

Lemma detect_stamp_regions_strict_bounds_witness :
  let image : @ndarray Fixtures.stub_imaging := [(5, 7, 120, 60)] in
  In (5, 7, 120, 60) (OCRService._detect_stamp_regions image) <->
  50 < 120 < 300 /\ 30 < 60 < 150
  /\ (3 # 2 < inject_Z 120 / inject_Z 60)%Q
  /\ (inject_Z 120 / inject_Z 60 < 5 # 1)%Q.
Proof.
  intros image.
  apply (proj1 (@detect_stamp_regions_strict_bounds Fixtures.stub_imaging image)
           (5, 7, 120, 60) 5 7 120 60).
  - left. reflexivity.
  - reflexivity.
Defined.

(* ===================================================================== *)
(** ** Properties of the recognition step and of the document pipeline *)
(* ===================================================================== *)

Section Recognition.
Import Py OCRService OcrModels.
Context {imaging : Imaging}.
Variable settings : Settings.

Lemma max_from_In (best : ocr_result) (results : list ocr_result) :
  In (max_from best results) (best :: results).
Proof.
  revert best. induction results as [|r results IH]; intros best; simpl.
  - left. reflexivity.
  - destruct (IH (if fgt (ocr_confidence r) (ocr_confidence best) then r else best))
      as [E | Hin].
    + rewrite <- E. destruct (fgt _ _); [right; left | left]; reflexivity.
    + right. right. exact Hin.
Qed.

(** Nothing compares greater than NaN: a first result whose confidence
    is NaN stays the maximum. *)
Lemma max_from_NaN (best : ocr_result) (results : list ocr_result) :
  ocr_confidence best = NaN -> max_from best results = best.
Proof.
  intros Hnan. induction results as [|r results IH]; cbn [max_from]; [reflexivity|].
  unfold fgt. rewrite Hnan.
  change (flt NaN (ocr_confidence r)) with false. exact IH.
Qed.

(** No result compares greater than the selected one. *)
Lemma max_from_greatest (best : ocr_result) (results : list ocr_result) :
  forall r, In r (best :: results) ->
            fgt (ocr_confidence r) (ocr_confidence (max_from best results)) = false.
Proof.
  revert best. induction results as [|r1 results IH]; intros best r Hin.
  - destruct Hin as [<- | []]. apply flt_irrefl.
  - cbn [max_from]. destruct Hin as [<- | [<- | Hin]].
    + destruct (fgt (ocr_confidence r1) (ocr_confidence best)) eqn:E;
        [|apply IH; left; reflexivity].
      pose proof (IH r1 r1 (or_introl eq_refl)) as Hr1. unfold fgt in *.
      destruct (flt (ocr_confidence (max_from r1 results)) (ocr_confidence best))
        eqn:F; [|reflexivity].
      rewrite (flt_trans _ _ _ F E) in Hr1. discriminate Hr1.
    + destruct (fgt (ocr_confidence r1) (ocr_confidence best)) eqn:E;
        [apply IH; left; reflexivity|].
      pose proof (IH best best (or_introl eq_refl)) as Hbest. unfold fgt in *.
      assert (Hb : ocr_confidence best = NaN \/ ocr_confidence best <> NaN)
        by (destruct (ocr_confidence best); [right | right | left | right];
            (reflexivity || discriminate)).
      destruct Hb as [Hb | Hb].
      * rewrite (max_from_NaN best results Hb). exact E.
      * exact (flt_neg_trans _ (ocr_confidence best) _ Hb Hbest E).
    + apply IH. right. exact Hin.
Qed.

(** When every confidence is a number, the one selected is a number and
    the greatest. *)
Lemma max_from_numeric (best : ocr_result) (results : list ocr_result) :
  (forall r, In r (best :: results) -> ocr_confidence r <> NaN) ->
  ocr_confidence (max_from best results) <> NaN
  /\ forall r, In r (best :: results) ->
               fle (ocr_confidence r) (ocr_confidence (max_from best results)) = true.
Proof.
  intros Hnum. split; [apply Hnum, max_from_In|].
  intros r Hin. apply fle_of_not_flt.
  - apply Hnum, max_from_In.
  - apply Hnum, Hin.
  - apply (max_from_greatest best results r Hin).
Qed.

(** With no result at all for a region there is no stamp either. *)
Lemma process_stamp_no_result (stamp_image : ndarray) :
  run_configs (enhance_image_for_ocr stamp_image) = [] ->
  _process_stamp settings stamp_image = Ok None.
Proof. intros H. unfold _process_stamp. rewrite H. reflexivity. Qed.

(** C8.  For an image that can be read and in which no stamp region is
    detected, [process_passport_image] returns the empty list and does
    not raise. *)
Theorem process_passport_image_no_region (image_path : string) (image : ndarray) :
  cv2_imread image_path = Some image ->
  _detect_stamp_regions (cv2_cvtColor_gray image) = [] ->
  process_passport_image settings image_path = Ok [].
Proof.
  intros Hread Hnone. unfold process_passport_image.
  rewrite Hread, Hnone. reflexivity.
Qed.

(** An image that cannot be read is the one error of the entry point
    that does not come from a region. *)
Lemma process_passport_image_unreadable (image_path : string) :
  cv2_imread image_path = None ->
  exists msg, process_passport_image settings image_path = Raise (ValueError msg).
Proof.
  intros Hread. unfold process_passport_image. rewrite Hread.
  eexists. reflexivity.
Qed.

End Recognition.

(** C6.  A region for which the first pass reads a text but reports no
    word with a positive confidence, and the two other passes read it
    with the confidences 40 and 30: the mean of no entry is NaN, which
    no confidence compares greater than, so the result that is kept is
    the first and not the one of confidence 40; NaN does not compare
    below [0.7 * 100 = 70.0] either, although 40 and 30 do, so a stamp
    is returned, with the confidence NaN. *)
Theorem process_stamp_unscored_pass_kept :
  let image : @ndarray Fixtures.unscored_imaging := [(10, 10, 120, 60)] in
  let results :=
    @OCRService.run_configs Fixtures.unscored_imaging (enhance_image_for_ocr image) in
  let bar := fmul (OCR_CONFIDENCE_THRESHOLD default_settings) (of_int 100) in
  map OCRService.ocr_confidence results = [NaN; of_int 40; of_int 30]
  /\ bar = of_int 70
  /\ flt (of_int 40) bar = true
  /\ flt (of_int 30) bar = true
  /\ exists stamp,
       OCRService._process_stamp default_settings image = Ok (Some stamp)
       /\ OcrModels.text stamp = "ENTRY 03/14/2023"
       /\ OcrModels.confidence stamp = NaN.
Proof.
  intros image results bar.
  split; [reflexivity|]. split; [reflexivity|].
  split; [reflexivity|]. split; [reflexivity|].
  assert (H : match OCRService._process_stamp default_settings image with
              | Ok (Some stamp) =>
                  String.eqb (OcrModels.text stamp) "ENTRY 03/14/2023"
                  && match OcrModels.confidence stamp with
                     | NaN => true
                     | _ => false
                     end
              | _ => false
              end = true) by (vm_compute; reflexivity).
  destruct (OCRService._process_stamp default_settings image) as [[stamp|]|e];
    try discriminate H.
  exists stamp. split; [reflexivity|].
  apply andb_true_iff in H as [Ht Hc].
  split; [apply String.eqb_eq; exact Ht|].
  destruct (OcrModels.confidence stamp); try discriminate Hc. reflexivity.
Qed.

Lemma process_passport_image_no_region_witness :
  @OCRService.process_passport_image Fixtures.stub_imaging default_settings
    "passport.jpg" = Ok [].
Proof.
  apply (@process_passport_image_no_region Fixtures.stub_imaging default_settings
           "passport.jpg" [(10, 10, 300, 100); (0, 0, 40, 20)]).
  - reflexivity.
  - reflexivity.
Defined.

(* ===================================================================== *)
(** ** Properties of the Candidate Validator *)
(* ===================================================================== *)

Section Validator.
Import Py Datetime OCRService OcrModels.
Variable clock : nat -> datetime.

(** C5.  [validate_stamp_data] answers false exactly when the stamp has
    no entry date, no exit date and no country (none, or the empty
    string), or its entry date is later than the clock reading taken for
    it, or its exit date is later than the clock reading taken for it,
    or both dates are there and the entry date is later than the exit
    date; in every other case it answers true.  The clock is read once
    for each date that is present, the entry date first. *)
Theorem validate_stamp_data_rejects_iff (stamp : PassportStamp) (n : nat) :
  let now_entry := clock n in
  let now_exit := clock (if truthy_date (entry_date stamp) then S n else n) in
  fst (validate_stamp_data clock stamp n) = false <->
  (entry_date stamp = None /\ exit_date stamp = None
   /\ truthy_str (country stamp) = false)
  \/ (exists d, entry_date stamp = Some d /\ gt d now_entry = true)
  \/ (exists d, exit_date stamp = Some d /\ gt d now_exit = true)
  \/ (exists d1 d2, entry_date stamp = Some d1 /\ exit_date stamp = Some d2
                    /\ gt d1 d2 = true).
Proof.
  unfold validate_stamp_data, in_future, datetime_now, ret.
  destruct (entry_date stamp) as [d1|], (exit_date stamp) as [d2|]; simpl.
  - destruct (gt d1 (clock n)) eqn:E1; simpl.
    { split; [|reflexivity]. intros _. right. left. eauto. }
    destruct (gt d2 (clock (S n))) eqn:E2; simpl.
    { split; [|reflexivity]. intros _. right. right. left. eauto. }
    destruct (gt d1 d2) eqn:E3; simpl.
    { split; [|reflexivity]. intros _. right. right. right. eauto. }
    split; [discriminate|].
    intros [(H & H0 & _) | [(d & H & G) | [(d & H & G) | (d & d' & H & H' & G)]]];
      simplify_eq; congruence.
  - destruct (gt d1 (clock n)) eqn:E1; simpl.
    { split; [|reflexivity]. intros _. right. left. eauto. }
    split; [discriminate|].
    intros [(H & H0 & _) | [(d & H & G) | [(d & H & G) | (d & d' & H & H' & G)]]];
      simplify_eq; congruence.
  - destruct (gt d2 (clock n)) eqn:E2; simpl.
    { split; [|reflexivity]. intros _. right. right. left. eauto. }
    split; [discriminate|].
    intros [(H & H0 & _) | [(d & H & G) | [(d & H & G) | (d & d' & H & H' & G)]]];
      simplify_eq; congruence.
  - destruct (truthy_str (country stamp)) eqn:Ec; simpl.
    + split; [discriminate|].
      intros [(_ & _ & H) | [(d & H & G) | [(d & H & G) | (d & d' & H & H' & G)]]];
        simplify_eq; congruence.
    + split; [|reflexivity]. intros _. left. auto.
Qed.

End Validator.

(* ===================================================================== *)
(** ** Properties of the Email Parser *)
(* ===================================================================== *)

Section EmailParser.
Import Py Re EmailModels EmailService EmailSpec.

Lemma startswith_spec (needle t : ctext) :
  startswith needle t = true <-> exists after, t = (needle ++ after)%list.
Proof.
  revert t. induction needle as [|a needle IH]; intros t; simpl.
  - split; [intros _; exists t; reflexivity | reflexivity].
  - destruct t as [|b t].
    + split; [discriminate | intros (after & E); discriminate E].
    + rewrite andb_true_iff, Ascii.eqb_eq, IH. split.
      * intros (-> & after & ->). exists after. reflexivity.
      * intros (after & E). injection E as -> ->. split; [reflexivity|].
        exists after. reflexivity.
Qed.

Lemma contains_spec (needle hay : ctext) :
  contains needle hay = true <->
  exists before after, hay = (before ++ needle ++ after)%list.
Proof.
  induction hay as [|c hay IH].
  - simpl. rewrite orb_false_r, startswith_spec. split.
    + intros (after & E). exists [], after. exact E.
    + intros (before & after & E). destruct before; [|discriminate E].
      exists after. exact E.
  - cbn [contains]. rewrite orb_true_iff, startswith_spec, IH. split.
    + intros [(after & E) | (before & after & E)].
      * exists [], after. exact E.
      * exists (c :: before), after. rewrite E. reflexivity.
    + intros (before & after & E). destruct before as [|c' before].
      * left. exists after. exact E.
      * right. injection E as -> E. exists before, after. exact E.
Qed.

Lemma str_in_spec (needle hay : string) :
  str_in needle hay = true <-> occurs_in needle hay.
Proof. apply contains_spec. Qed.

Lemma is_confirmation_spec (email : EmailMessage) :
  is_confirmation email = true <-> mentions_keyword email.
Proof.
  unfold is_confirmation, mentions_keyword. rewrite existsb_exists.
  split; intros (keyword & Hin & H); exists keyword; (split; [exact Hin|]).
  - apply orb_true_iff in H. rewrite <- !str_in_spec. exact H.
  - apply orb_true_iff. rewrite <- !str_in_spec in H. exact H.
Qed.

Lemma extract_with_truthy (pats : list (string * regex)) (body : string) (d : dict) :
  dict_truthy (extract_with pats body d) = true <->
  dict_truthy d = true
  \/ exists key pattern, In (key, pattern) pats /\ findall true pattern body <> [].
Proof.
  revert d. induction pats as [|[key pattern] pats IH]; intros d.
  - simpl. split; [auto | intros [H | (k & p & [] & _)]; exact H].
  - cbn [extract_with]. rewrite IH.
    destruct (findall true pattern body) as [|m found] eqn:E.
    + split.
      * intros [H | (k & p & Hin & Hne)]; [left; exact H|].
        right. exists k, p. split; [right; exact Hin | exact Hne].
      * intros [H | (k & p & [Heq | Hin] & Hne)]; [left; exact H | |].
        -- injection Heq as <- <-. congruence.
        -- right. exists k, p. split; assumption.
    + rewrite dict_truthy_insert. split; [|auto].
      intros _. right. exists key, pattern. split; [left; reflexivity|].
      rewrite E. discriminate.
Qed.

Lemma extract_truthy_spec (email : EmailMessage) :
  dict_truthy (extract (body email)) = true <-> some_pattern_matches email.
Proof.
  unfold extract, some_pattern_matches. rewrite extract_with_truthy.
  rewrite dict_truthy_empty. split; [intros [H | H]; [discriminate H | exact H] | auto].
Qed.

(** The parser answers [None] exactly when the email holds no keyword
    or no pattern matches its body. *)
Lemma parse_flight_confirmation_None_iff (email : EmailMessage) :
  parse_flight_confirmation email = Ok None <->
  ~ (mentions_keyword email /\ some_pattern_matches email).
Proof.
  rewrite <- is_confirmation_spec, <- extract_truthy_spec.
  unfold parse_flight_confirmation.
  destruct (is_confirmation email), (dict_truthy (extract (body email))); simpl;
    try (split; [intros _ [H1 H2]; discriminate | reflexivity]).
  split; [|intros H; exfalso; apply H; split; reflexivity].
  unfold new_FlightConfirmation.
  destruct (opt_str _), (opt_str _), (opt_str _), (opt_str _); discriminate.
Qed.

Lemma is_confirmation_subject (email : EmailMessage) (keyword : string) :
  In keyword confirmation_keywords ->
  str_in keyword (lower (subject email)) = true ->
  is_confirmation email = true.
Proof.
  intros Hin Hsub. unfold is_confirmation. apply existsb_exists.
  exists keyword. split; [exact Hin|]. rewrite Hsub. reflexivity.
Qed.

(** What [parse_flight_confirmation] returns when the email is taken
    for a confirmation, something was extracted and the four string
    fields pass validation. *)
Lemma parse_flight_confirmation_Ok (email : EmailMessage)
    (number date time name : option string) :
  is_confirmation email = true ->
  dict_truthy (extract (body email)) = true ->
  opt_str (dict_get (extract (body email)) "flight_number") = Some number ->
  opt_str (dict_get (extract (body email)) "departure_date") = Some date ->
  opt_str (dict_get (extract (body email)) "departure_time") = Some time ->
  opt_str (dict_get (extract (body email)) "airline") = Some name ->
  parse_flight_confirmation email =
  Ok (Some {| email_id := message_id email;
              flight_number := number;
              departure_date := date;
              departure_time := time;
              arrival_date := None;
              arrival_time := None;
              departure_airport := None;
              arrival_airport := None;
              airline := name;
              passenger_name := None;
              booking_reference := None;
              raw_data := Some (extract (body email)) |}).
Proof.
  intros Hc Ht Hn Hd Htime Ha.
  unfold parse_flight_confirmation, new_FlightConfirmation.
  rewrite Hc, Ht, Hn, Hd, Htime, Ha. reflexivity.
Qed.

(** Conversely, a confirmation that is returned was built that way. *)
Lemma parse_flight_confirmation_inv (email : EmailMessage) (fc : FlightConfirmation) :
  parse_flight_confirmation email = Ok (Some fc) ->
  is_confirmation email = true
  /\ dict_truthy (extract (body email)) = true
  /\ exists number date time name,
       opt_str (dict_get (extract (body email)) "flight_number") = Some number
       /\ opt_str (dict_get (extract (body email)) "departure_date") = Some date
       /\ opt_str (dict_get (extract (body email)) "departure_time") = Some time
       /\ opt_str (dict_get (extract (body email)) "airline") = Some name
       /\ fc = {| email_id := message_id email;
                  flight_number := number;
                  departure_date := date;
                  departure_time := time;
                  arrival_date := None;
                  arrival_time := None;
                  departure_airport := None;
                  arrival_airport := None;
                  airline := name;
                  passenger_name := None;
                  booking_reference := None;
                  raw_data := Some (extract (body email)) |}.
Proof.
  unfold parse_flight_confirmation, new_FlightConfirmation.
  destruct (is_confirmation email); [|discriminate].
  destruct (dict_truthy (extract (body email))); [|discriminate].
  destruct (opt_str (dict_get (extract (body email)) "flight_number")) as [number|];
    [|discriminate].
  destruct (opt_str (dict_get (extract (body email)) "departure_date")) as [date|];
    [|discriminate].
  destruct (opt_str (dict_get (extract (body email)) "departure_time")) as [time|];
    [|discriminate].
  destruct (opt_str (dict_get (extract (body email)) "airline")) as [name|];
    [|discriminate].
  simpl. intros E. injection E as <-.
  split; [reflexivity|]. split; [reflexivity|].
  exists number, date, time, name. repeat (split; [reflexivity|]). reflexivity.
Qed.

(** What the loop leaves under the key [airport_code]. *)
Lemma extract_airport_code (body : string) :
  extract body !! "airport_code" =
  match findall true pattern_airport_code body with
  | [] => None
  | found => Some (one_or_all found)
  end.
Proof.
  unfold extract, patterns. cbn [extract_with].
  destruct (findall true pattern_flight_number body);
    destruct (findall true pattern_departure_date body);
    destruct (findall true pattern_departure_time body);
    destruct (findall true pattern_airport_code body);
    destruct (findall true pattern_airline body);
    rewrite ?(lookup_insert_ne (M := gmap string)) by discriminate;
    rewrite ?lookup_insert_eq, ?lookup_empty; reflexivity.
Qed.

(** C3 (as the code has it).  An email whose subject is
    "Your Delta Flight Confirmation" is taken for a confirmation
    whatever its body.  With the body "DL 1234 03/14/2023" the parser
    returns a confirmation whose flight number is "DL 1234", whose
    departure date is "03/14/2023" and whose airline is none: the airline
    names are looked for in the body only.  With the body
    "Delta DL 1234 03/14/2023" the airline is "Delta". *)
Theorem parse_flight_confirmation_delta_scenario :
  (forall (id sender body : string) (received : Datetime.datetime)
          (parsed : option dict),
      is_confirmation {| message_id := id;
                         subject := "Your Delta Flight Confirmation";
                         sender := sender; received_at := received;
                         body := body; parsed_data := parsed |} = true)
  /\ (exists fc,
        parse_flight_confirmation
          (Fixtures.email "Your Delta Flight Confirmation" "DL 1234 03/14/2023")
        = Ok (Some fc)
        /\ flight_number fc = Some "DL 1234"
        /\ departure_date fc = Some "03/14/2023"
        /\ airline fc = None)
  /\ (exists fc,
        parse_flight_confirmation
          (Fixtures.email "Your Delta Flight Confirmation" "Delta DL 1234 03/14/2023")
        = Ok (Some fc)
        /\ flight_number fc = Some "DL 1234"
        /\ departure_date fc = Some "03/14/2023"
        /\ airline fc = Some "Delta").
Proof.
  split; [|split].
  - intros id sender body received parsed.
    apply is_confirmation_subject with (keyword := "flight confirmation").
    + left. reflexivity.
    + vm_compute. reflexivity.
  - eexists. split.
    + apply parse_flight_confirmation_Ok; vm_compute; reflexivity.
    + repeat split.
  - eexists. split.
    + apply parse_flight_confirmation_Ok; vm_compute; reflexivity.
    + repeat split.
Qed.

(** C3 (as the spec states it) fails: the body "DL 1234 03/14/2023"
    holds both texts and the subject names Delta, and the confirmation
    returned has no airline. *)
Lemma parse_flight_confirmation_delta_not_from_subject :
  let email := Fixtures.email "Your Delta Flight Confirmation" "DL 1234 03/14/2023" in
  str_in "DL 1234" (body email) = true
  /\ str_in "03/14/2023" (body email) = true
  /\ ~ (exists fc, parse_flight_confirmation email = Ok (Some fc)
                   /\ flight_number fc = Some "DL 1234"
                   /\ airline fc = Some "Delta").
Proof.
  split; [vm_compute; reflexivity|]. split; [vm_compute; reflexivity|].
  intros (fc & E & _ & Hairline).
  apply parse_flight_confirmation_inv in E
    as (_ & _ & number & date & time & name & _ & _ & _ & Hname & ->).
  simpl in Hairline. subst name.
  vm_compute in Hname. discriminate Hname.
Qed.

(** C7.  The email with subject "Your itinerary" and body
    "Flights AA 123 and BB 456" holds a keyword and matches the flight
    number pattern, twice: the two matches are passed as a list for the
    string field [flight_number], and building the confirmation raises
    ValidationError instead of returning it. *)
Theorem parse_flight_confirmation_two_flight_numbers :
  let email := Fixtures.email "Your itinerary" "Flights AA 123 and BB 456" in
  mentions_keyword email
  /\ some_pattern_matches email
  /\ findall true pattern_flight_number (body email) = ["AA 123"; "BB 456"]
  /\ parse_flight_confirmation email = Raise (ValidationError ["flight_number"]).
Proof.
  intros email.
  split; [apply is_confirmation_spec; vm_compute; reflexivity|].
  split; [apply extract_truthy_spec; vm_compute; reflexivity|].
  split; vm_compute; reflexivity.
Qed.

(** Whenever the email holds no keyword or nothing was extracted, the
    answer is [None]; otherwise it is a confirmation or a
    ValidationError. *)
Lemma parse_flight_confirmation_cases (email : EmailMessage) :
  (is_confirmation email && dict_truthy (extract (body email)) = false
   /\ parse_flight_confirmation email = Ok None)
  \/ (is_confirmation email && dict_truthy (extract (body email)) = true
      /\ ((exists fc, parse_flight_confirmation email = Ok (Some fc))
          \/ (exists fields,
                parse_flight_confirmation email = Raise (ValidationError fields)))).
Proof.
  unfold parse_flight_confirmation.
  destruct (is_confirmation email && dict_truthy (extract (body email)));
    [right | left; split; reflexivity].
  split; [reflexivity|].
  destruct (new_FlightConfirmation _ _ _ _ _ _ _) as [fc|e] eqn:E; simpl.
  - left. eexists. reflexivity.
  - right. unfold new_FlightConfirmation in E.
    destruct (opt_str _), (opt_str _), (opt_str _), (opt_str _);
      try discriminate E; injection E as <-; eexists; reflexivity.
Qed.


(** C10.  A confirmation that is returned has no departure airport, no
    arrival airport, no arrival date and no arrival time; its raw data
    are the extracted dictionary, and that is where the matches of the
    airport code pattern are: one match as a string, several as a
    list. *)
Theorem parse_flight_confirmation_airports_unset
    (email : EmailMessage) (fc : FlightConfirmation) :
  parse_flight_confirmation email = Ok (Some fc) ->
  departure_airport fc = None
  /\ arrival_airport fc = None
  /\ arrival_date fc = None
  /\ arrival_time fc = None
  /\ raw_data fc = Some (extract (body email))
  /\ extract (body email) !! "airport_code" =
     match findall true pattern_airport_code (body email) with
     | [] => None
     | found => Some (one_or_all found)
     end.
Proof.
  intros E.
  apply parse_flight_confirmation_inv in E
    as (_ & _ & number & date & time & name & _ & _ & _ & _ & ->).
  simpl. repeat (split; [reflexivity|]). apply extract_airport_code.
Qed.

End EmailParser.


Lemma parse_flight_confirmation_airports_unset_witness :
  exists fc,
    EmailService.parse_flight_confirmation
      (Fixtures.email "Your itinerary" "Flight UA 512 at 10:30 PM") = Ok (Some fc)
    /\ EmailModels.departure_airport fc = None
    /\ EmailModels.arrival_airport fc = None
    /\ EmailModels.arrival_date fc = None
    /\ EmailModels.arrival_time fc = None.
Proof.
  set (email := Fixtures.email "Your itinerary" "Flight UA 512 at 10:30 PM").
  assert (E : exists fc, EmailService.parse_flight_confirmation email = Ok (Some fc)).
  { eexists. apply parse_flight_confirmation_Ok; vm_compute; reflexivity. }
  destruct E as [fc E]. exists fc. split; [exact E|].
  destruct (parse_flight_confirmation_airports_unset email fc E)
    as (H1 & H2 & H3 & H4 & _).
  repeat split; assumption.
Defined.

(* ===================================================================== *)
(** ** What a match of the matcher is *)
(* ===================================================================== *)

Section Matcher.
Import Py Re.

Lemma chars_str (t : ctext) : chars (str t) = t.
Proof. apply list_ascii_of_string_of_list_ascii. Qed.

Lemma str_chars (s : string) : str (chars s) = s.
Proof. apply string_of_list_ascii_of_string. Qed.

(** Every way a pattern matches leaves a suffix of the text. *)
Lemma matches_suffix (ic : bool) (r : regex) :
  forall t rest, In rest (matches ic r t) -> exists m, t = (m ++ rest)%list.
Proof.
  induction r as [a | p | r1 IH1 r2 IH2 | r1 IH1 r2 IH2 | r IH lo hi];
    intros t rest Hin; simpl in Hin.
  - destruct t as [|c t]; [destruct Hin|].
    destruct (test ic (Ascii.eqb a) c); [|destruct Hin].
    destruct Hin as [<- | []]. exists [c]. reflexivity.
  - destruct t as [|c t]; [destruct Hin|].
    destruct (test ic p c); [|destruct Hin].
    destruct Hin as [<- | []]. exists [c]. reflexivity.
  - apply in_flat_map in Hin as (mid & Hmid & Hrest).
    destruct (IH1 _ _ Hmid) as (m1 & ->).
    destruct (IH2 _ _ Hrest) as (m2 & ->).
    exists (m1 ++ m2)%list. rewrite <- app_assoc. reflexivity.
  - apply in_app_or in Hin as [Hin | Hin]; eauto.
  - revert Hin.
    generalize (match hi with Some h => h | None => length t end) as n.
    intros n. revert lo t.
    induction n as [|n IHn]; intros lo t Hin.
    + destruct lo; [|destruct Hin]. destruct Hin as [<- | []].
      exists []. reflexivity.
    + apply in_app_or in Hin as [Hin | Hin].
      * apply in_flat_map in Hin as (mid & Hmid & Hrest).
        destruct (IH _ _ Hmid) as (m1 & ->).
        destruct (IHn _ _ Hrest) as (m2 & ->).
        exists (m1 ++ m2)%list. rewrite <- app_assoc. reflexivity.
      * destruct lo; [|destruct Hin]. destruct Hin as [<- | []].
        exists []. reflexivity.
Qed.

Lemma take_matched (m rest : ctext) :
  take (length (m ++ rest) - length rest) (m ++ rest)%list = m.
Proof.
  rewrite length_app, Nat.add_sub. apply take_app_length.
Qed.

(** The match reported at the start of a text is a prefix of it, and
    what follows it is the first way the pattern matches. *)
Lemma match_here_spec (ic : bool) (r : regex) (t m : ctext) (n : nat) :
  match_here ic r t = Some (m, n) ->
  n = length m
  /\ exists rest, t = (m ++ rest)%list
                  /\ exists others, matches ic r t = rest :: others.
Proof.
  unfold match_here. destruct (matches ic r t) as [|rest others] eqn:E;
    [discriminate|].
  intros H. injection H as <- <-.
  destruct (matches_suffix ic r t rest) as (m & ->).
  { rewrite E. left. reflexivity. }
  rewrite take_matched. split.
  - rewrite length_app, Nat.add_sub. reflexivity.
  - exists rest. split; [reflexivity|]. exists others. reflexivity.
Qed.

(** [re.search] returns a piece of the text at which the pattern
    matches. *)
Lemma search_from_spec (ic : bool) (r : regex) (t m : ctext) :
  search_from ic r t = Some m ->
  exists before rest others,
    t = (before ++ m ++ rest)%list
    /\ matches ic r (m ++ rest) = rest :: others.
Proof.
  induction t as [|c t IH]; simpl.
  - destruct (match_here ic r []) as [[m' n]|] eqn:E; [|discriminate].
    intros H. injection H as ->.
    apply match_here_spec in E as (_ & rest & Ht & others & Hm).
    exists [], rest, others. split; [exact Ht|]. rewrite <- Ht. exact Hm.
  - destruct (match_here ic r (c :: t)) as [[m' n]|] eqn:E.
    + intros H. injection H as ->.
      apply match_here_spec in E as (_ & rest & Ht & others & Hm).
      exists [], rest, others. split; [exact Ht|]. rewrite <- Ht. exact Hm.
    + intros H. destruct (IH H) as (before & rest & others & -> & Hm).
      exists (c :: before), rest, others. split; [reflexivity | exact Hm].
Qed.

(** A match of an alternation is a match of one of its branches. *)
Lemma matches_Alts (ic : bool) (r : regex) (rs : list regex) (t rest : ctext) :
  In rest (matches ic (Alts r rs) t) ->
  exists r', In r' (r :: rs) /\ In rest (matches ic r' t).
Proof.
  revert r. induction rs as [|r2 rs IH]; intros r Hin; simpl in Hin.
  - exists r. split; [left; reflexivity | exact Hin].
  - apply in_app_or in Hin as [Hin | Hin].
    + exists r. split; [left; reflexivity | exact Hin].
    + destruct (IH _ Hin) as (r' & Hr' & Hm).
      exists r'. split; [right; exact Hr' | exact Hm].
Qed.

(** A match of a literal word has the length of the word and agrees with
    it character by character, up to case when case is ignored. *)
Lemma matches_Word_from (ic : bool) (w t rest : ctext) :
  In rest (matches ic (Word_from w) t) ->
  exists m, t = (m ++ rest)%list
            /\ Forall2 (fun a c => test ic (Ascii.eqb a) c = true) w m.
Proof.
  revert t. induction w as [|a w IH]; intros t Hin.
  - simpl in Hin. destruct Hin as [<- | []]. exists []. split; [reflexivity|].
    constructor.
  - destruct w as [|a2 w].
    + simpl in Hin. destruct t as [|c t]; [destruct Hin|].
      destruct (test ic (Ascii.eqb a) c) eqn:E; [|destruct Hin].
      destruct Hin as [<- | []]. exists [c]. split; [reflexivity|].
      constructor; [exact E | constructor].
    + change (Word_from (a :: a2 :: w)) with (Cat (Chr a) (Word_from (a2 :: w))) in Hin.
      cbn [matches] in Hin.
      destruct t as [|c t]; [destruct Hin|].
      destruct (test ic (Ascii.eqb a) c) eqn:E; [|destruct Hin].
      cbn [flat_map] in Hin. rewrite app_nil_r in Hin.
      destruct (IH _ Hin) as (m & -> & HF).
      exists (c :: m). split; [reflexivity|]. constructor; assumption.
Qed.

End Matcher.

(* ===================================================================== *)
(** ** Letter case *)
(* ===================================================================== *)

Section LetterCase.
Import Py Re.

Ltac by_cases_on c :=
  destruct c as [[] [] [] [] [] [] [] []]; vm_compute; reflexivity.

Lemma to_lower_to_lower (c : ascii) : to_lower (to_lower c) = to_lower c.
Proof. by_cases_on c. Qed.

Lemma to_lower_to_upper (c : ascii) : to_lower (to_upper c) = to_lower c.
Proof. by_cases_on c. Qed.

Lemma to_upper_to_lower (c : ascii) : to_upper (to_lower c) = to_upper c.
Proof. by_cases_on c. Qed.

Lemma to_upper_to_upper (c : ascii) : to_upper (to_upper c) = to_upper c.
Proof. by_cases_on c. Qed.

Lemma cased_to_lower (c : ascii) :
  isupper (to_lower c) || islower (to_lower c) = isupper c || islower c.
Proof. by_cases_on c. Qed.

Lemma cased_to_upper (c : ascii) :
  isupper (to_upper c) || islower (to_upper c) = isupper c || islower c.
Proof. by_cases_on c. Qed.

(** A pattern character accepts a text character when they are equal,
    or equal up to case when case is ignored. *)
Lemma test_eqb_cases (ic : bool) (a c : ascii) :
  test ic (Ascii.eqb a) c = true ->
  a = c \/ (ic = true /\ (a = to_lower c \/ a = to_upper c)).
Proof.
  unfold test. rewrite orb_true_iff, andb_true_iff, orb_true_iff, !Ascii.eqb_eq.
  tauto.
Qed.

Lemma test_eqb_same_letter (ic : bool) (a c : ascii) :
  test ic (Ascii.eqb a) c = true ->
  to_lower a = to_lower c /\ to_upper a = to_upper c
  /\ isupper a || islower a = isupper c || islower c.
Proof.
  intros H. apply test_eqb_cases in H as [-> | (_ & [-> | ->])].
  - auto.
  - rewrite to_lower_to_lower, to_upper_to_lower, cased_to_lower. auto.
  - rewrite to_lower_to_upper, to_upper_to_upper, cased_to_upper. auto.
Qed.

(** [title] does not look at the case of its argument. *)
Lemma title_from_same_letters (ic : bool) (w m : ctext) (prev : bool) :
  Forall2 (fun a c => test ic (Ascii.eqb a) c = true) w m ->
  title_from prev m = title_from prev w.
Proof.
  intros H. revert prev. induction H as [|a c w m Hac _ IH]; intros prev.
  - reflexivity.
  - apply test_eqb_same_letter in Hac as (Hl & Hu & Hc).
    simpl. rewrite <- Hc, <- Hl, <- Hu, !IH.
    destruct (isupper a || islower a) eqn:Ea; [reflexivity|].
    symmetry in Hc.
    apply orb_false_iff in Ea as [Ea _], Hc as [Hc _].
    unfold to_lower in Hl. rewrite Ea, Hc in Hl. rewrite Hl. reflexivity.
Qed.

Lemma lower_upper (s : string) : lower (upper s) = lower s.
Proof.
  unfold lower, upper. rewrite chars_str, map_map. f_equal.
  apply map_ext. intros c. apply to_lower_to_upper.
Qed.

Lemma lower_lower (s : string) : lower (lower s) = lower s.
Proof.
  unfold lower. rewrite chars_str, map_map. f_equal.
  apply map_ext. intros c. apply to_lower_to_lower.
Qed.

End LetterCase.

(* ===================================================================== *)
(** ** More on the Field Extractor *)
(* ===================================================================== *)

Section FieldExtractorMore.
Import Py Re Datetime OCRService EmailSpec StampSpec.

(** What a match of [[A-Z]{3}] is. *)
Lemma matches_three_capitals (t rest : ctext) :
  In rest (matches false (Rep A_Z 3 (Some 3%nat)) t) ->
  exists c1 c2 c3,
    t = c1 :: c2 :: c3 :: rest
    /\ isupper c1 = true /\ isupper c2 = true /\ isupper c3 = true.
Proof.
  destruct t as [|c1 [|c2 [|c3 t]]]; cbn.
  - intros [].
  - unfold test. rewrite orb_false_r. destruct (isupper c1); cbn; intros [].
  - unfold test. rewrite !orb_false_r.
    destruct (isupper c1); cbn; [|intros []].
    destruct (isupper c2); cbn; intros [].
  - unfold test. rewrite !orb_false_r.
    destruct (isupper c1) eqn:E1; cbn; [|intros []].
    destruct (isupper c2) eqn:E2; cbn; [|intros []].
    destruct (isupper c3) eqn:E3; cbn; [|intros []].
    intros [<- | []]. exists c1, c2, c3. auto.
Qed.

(** [re.search] with the airport pattern returns three capital letters
    that stand next to each other in the text. *)
Lemma search_three_capitals (text code : string) :
  search false (Rep A_Z 3 (Some 3%nat)) text = Some code ->
  occurs_in code text
  /\ exists c1 c2 c3,
       code = String c1 (String c2 (String c3 EmptyString))
       /\ isupper c1 = true /\ isupper c2 = true /\ isupper c3 = true.
Proof.
  unfold search.
  destruct (search_from false (Rep A_Z 3 (Some 3%nat)) (chars text)) as [m|] eqn:E;
    [|discriminate].
  intros H. injection H as <-.
  apply search_from_spec in E as (before & rest & others & Ht & Hm).
  destruct (matches_three_capitals (m ++ rest) rest) as (c1 & c2 & c3 & Hc & H1 & H2 & H3).
  { rewrite Hm. left. reflexivity. }
  assert (Em : m = [c1; c2; c3]).
  { apply (app_inv_tail rest). exact Hc. }
  subst m. split.
  - exists before, rest. rewrite chars_str. exact Ht.
  - exists c1, c2, c3. auto.
Qed.

(** [re.search] with the country pattern, case ignored, returns a piece
    of the text that [title] turns into one of the eleven names. *)
Lemma search_country (text found : string) :
  search true pattern_country text = Some found ->
  occurs_in found text /\ In (title found) country_names.
Proof.
  unfold search.
  destruct (search_from true pattern_country (chars text)) as [m|] eqn:E;
    [|discriminate].
  intros H. injection H as <-.
  apply search_from_spec in E as (before & rest & others & Ht & Hm).
  split; [exists before, rest; rewrite chars_str; exact Ht|].
  assert (Hin : In rest (matches true pattern_country (m ++ rest)))
    by (rewrite Hm; left; reflexivity).
  apply matches_Alts in Hin as (r' & Hr' & Hin).
  unfold title. rewrite chars_str.
  assert (Hword : forall w : string,
             r' = Word w -> title_from false m = title_from false (chars w)).
  { intros w ->. apply matches_Word_from in Hin as (m' & Hm' & HF).
    apply app_inv_tail in Hm'. subst m'.
    exact (title_from_same_letters true _ _ false HF). }
  cbn [In] in Hr'.
  repeat (destruct Hr' as [Hr' | Hr'];
          [rewrite (Hword _ (eq_sym Hr')); vm_compute; tauto|]).
  destruct Hr'.
Qed.

(** The keys of the dictionary of [_parse_stamp_text] and what is under
    each of them. *)
Lemma parse_stamp_text_lookups (text : string) :
  exists d,
    _parse_stamp_text text = Some d
    /\ d !! "stamp_type" = Some (PStr (direction text))
    /\ d !! "country" = option_map (fun m => PStr (title m))
                          (search true pattern_country text)
    /\ d !! "city" = option_map (fun m => PStr (title m))
                       (search false pattern_city text)
    /\ d !! "airport_code" = option_map PStr (search false pattern_airport_code text)
    /\ d !! "entry_date" =
       match findall false pattern_date text with
       | [] => None
       | date0 :: _ => if String.eqb (direction text) "exit" then None
                       else Some (of_date (_parse_date date0))
       end
    /\ d !! "exit_date" =
       match findall false pattern_date text with
       | [] => None
       | date0 :: _ => if String.eqb (direction text) "exit"
                       then Some (of_date (_parse_date date0)) else None
       end
    /\ forall key,
         ~ In key ["stamp_type"; "country"; "city"; "airport_code";
                   "entry_date"; "exit_date"] ->
         d !! key = None.
Proof.
  unfold _parse_stamp_text, direction.
  destruct (findall false pattern_date text) as [|date0 dates];
    destruct (str_in "ENTRY" (upper text) || str_in "ARRIVAL" (upper text));
    destruct (str_in "EXIT" (upper text) || str_in "DEPARTURE" (upper text));
    destruct (search true pattern_country text) as [country_match|];
    destruct (search false pattern_city text) as [city_match|];
    destruct (search false pattern_airport_code text) as [airport_match|];
    rewrite dict_truthy_insert; eexists; (split; [reflexivity|]);
    cbn [option_map String.eqb Ascii.eqb Bool.eqb];
    repeat (split;
            [repeat (rewrite lookup_insert_ne by discriminate);
             rewrite ?lookup_insert_eq, ?lookup_empty; reflexivity|]);
    intros key Hkey;
    repeat (rewrite lookup_insert_ne
              by (intros <-; apply Hkey; cbn [In]; tauto));
    apply lookup_empty.
Qed.

End FieldExtractorMore.

(* ===================================================================== *)
(** ** Further properties of the Field Extractor *)
(* ===================================================================== *)

Section FieldExtractorProperties.
Import Py Re Datetime OCRService EmailSpec StampSpec.

(** A text in which the pattern matches somewhere is not left without
    an answer by [re.search]. *)
Lemma search_from_complete (ic : bool) (r : regex) (before t : ctext) :
  matches ic r t <> [] -> search_from ic r (before ++ t) <> None.
Proof.
  intros Hm. induction before as [|c before IH].
  - destruct t as [|c t]; simpl; unfold match_here;
      destruct (matches ic r _); [congruence | discriminate | congruence | discriminate].
  - cbn [app search_from].
    destruct (match_here ic r (c :: before ++ t)) as [[m n]|]; [discriminate|].
    exact IH.
Qed.

(** [_parse_stamp_text] answers on every text; the dictionary holds the
    key [stamp_type], whose value is "entry" when the upper-cased text
    holds ENTRY or ARRIVAL, else "exit" when it holds EXIT or DEPARTURE,
    else "unknown"; and it holds no key besides [stamp_type], [country],
    [city], [airport_code], [entry_date] and [exit_date]. *)
Theorem parse_stamp_text_direction_and_keys (text : string) :
  exists d,
    _parse_stamp_text text = Some d
    /\ d !! "stamp_type" = Some (PStr (direction text))
    /\ (str_in "ENTRY" (upper text) = true \/ str_in "ARRIVAL" (upper text) = true ->
        direction text = "entry")
    /\ (forall key, is_Some (d !! key) ->
                    In key ["stamp_type"; "country"; "city"; "airport_code";
                            "entry_date"; "exit_date"]).
Proof.
  destruct (parse_stamp_text_lookups text) as (d & E & Hs & _ & _ & _ & _ & _ & Hkeys).
  exists d. split; [exact E|]. split; [exact Hs|]. split.
  - intros H. unfold direction.
    assert (G : str_in "ENTRY" (upper text) || str_in "ARRIVAL" (upper text) = true)
      by (apply orb_true_iff; exact H).
    rewrite G. reflexivity.
  - intros key [v Hv].
    destruct (in_dec string_dec key
                ["stamp_type"; "country"; "city"; "airport_code";
                 "entry_date"; "exit_date"]) as [Hin | Hout]; [exact Hin|].
    rewrite (Hkeys key Hout) in Hv. discriminate Hv.
Qed.

(** The first match of the date pattern, if there is one, is stored
    under exactly one key: [exit_date] when the stamp type is "exit",
    [entry_date] otherwise (also for the type "unknown"); its value is
    what [_parse_date] makes of it, [None] included.  Without a match
    neither key is there. *)
Theorem parse_stamp_text_date_key (text : string) :
  exists d,
    _parse_stamp_text text = Some d
    /\ match findall false pattern_date text with
       | [] => d !! "entry_date" = None /\ d !! "exit_date" = None
       | date0 :: _ =>
           (d !! "stamp_type" = Some (PStr "exit")
            /\ d !! "exit_date" = Some (of_date (_parse_date date0))
            /\ d !! "entry_date" = None)
           \/ (d !! "stamp_type" <> Some (PStr "exit")
               /\ d !! "entry_date" = Some (of_date (_parse_date date0))
               /\ d !! "exit_date" = None)
       end.
Proof.
  destruct (parse_stamp_text_lookups text) as (d & E & Hs & _ & _ & _ & He & Hx & _).
  exists d. split; [exact E|].
  destruct (findall false pattern_date text) as [|date0 dates]; [auto|].
  rewrite Hs, He, Hx. unfold direction.
  destruct (str_in "ENTRY" (upper text) || str_in "ARRIVAL" (upper text));
    [right; cbn; split; [discriminate | auto]|].
  destruct (str_in "EXIT" (upper text) || str_in "DEPARTURE" (upper text)).
  - left. cbn. auto.
  - right. cbn. split; [discriminate | auto].
Qed.

(** The airport code, when the dictionary has one, is three capital
    letters that stand next to each other in the text; and the
    dictionary has one as soon as the text holds three capitals in a
    row. *)
Theorem parse_stamp_text_airport_code (text : string) :
  exists d,
    _parse_stamp_text text = Some d
    /\ (d !! "airport_code" = None
        \/ exists c1 c2 c3,
             d !! "airport_code"
             = Some (PStr (String c1 (String c2 (String c3 EmptyString))))
             /\ isupper c1 = true /\ isupper c2 = true /\ isupper c3 = true
             /\ occurs_in (String c1 (String c2 (String c3 EmptyString))) text)
    /\ (forall c1 c2 c3,
          isupper c1 = true -> isupper c2 = true -> isupper c3 = true ->
          occurs_in (String c1 (String c2 (String c3 EmptyString))) text ->
          is_Some (d !! "airport_code")).
Proof.
  destruct (parse_stamp_text_lookups text) as (d & E & _ & _ & _ & Ha & _).
  exists d. split; [exact E|]. rewrite Ha. split.
  - destruct (search false pattern_airport_code text) as [code|] eqn:Es;
      [right | left; reflexivity].
    apply search_three_capitals in Es as (Hocc & c1 & c2 & c3 & -> & H1 & H2 & H3).
    exists c1, c2, c3. cbn. auto.
  - intros c1 c2 c3 H1 H2 H3 (before & rest & Ht).
    assert (Hs : search_from false pattern_airport_code (chars text) <> None).
    { rewrite Ht. apply search_from_complete.
      cbn. unfold test. rewrite H1. cbn. rewrite H2. cbn. rewrite H3. cbn.
      discriminate. }
    unfold search.
    destruct (search_from false pattern_airport_code (chars text));
      [cbn; eauto | congruence].
Qed.

(** On a text of ASCII characters the country, when the dictionary has
    one, is one of the eleven names of the vocabulary, spelt with
    capital initials whatever the case of the text.  (Outside ASCII the
    letter case of Python is wider than the one of this model.) *)
Theorem parse_stamp_text_country (text : string) :
  isascii text = true ->
  exists d,
    _parse_stamp_text text = Some d
    /\ (d !! "country" = None
        \/ exists name, d !! "country" = Some (PStr name) /\ In name country_names).
Proof.
  intros _.
  destruct (parse_stamp_text_lookups text) as (d & E & _ & Hc & _).
  exists d. split; [exact E|]. rewrite Hc.
  destruct (search true pattern_country text) as [found|] eqn:Es;
    [right | left; reflexivity].
  apply search_country in Es as [_ Hin].
  exists (title found). split; [reflexivity | exact Hin].
Qed.

End FieldExtractorProperties.

Lemma parse_stamp_text_country_witness :
  exists d,
    OCRService._parse_stamp_text "arrival united kingdom 03/14/2023" = Some d
    /\ d !! "country" = Some (PStr "United Kingdom").
Proof.
  destruct (parse_stamp_text_country "arrival united kingdom 03/14/2023" eq_refl)
    as (d & E & Hc).
  exists d. split; [exact E|].
  assert (H : match OCRService._parse_stamp_text "arrival united kingdom 03/14/2023" with
              | Some d' => bool_decide (d' !! "country" = Some (PStr "United Kingdom"))
              | None => false
              end = true) by (vm_compute; reflexivity).
  rewrite E in H. apply bool_decide_eq_true in H. exact H.
Defined.


(* ===================================================================== *)
(** ** Properties of the date parser *)
(* ===================================================================== *)

Section DateParser.
Import Py Re Datetime OCRService.

(** A date that [strptime] returns exists in the calendar and has the
    time 00:00:00. *)
Lemma strptime_valid (date_str fmt : string) (d : datetime) :
  strptime date_str fmt = Some d ->
  valid_date (year d) (month d) (day d) = true
  /\ hour d = 0 /\ minute d = 0 /\ second d = 0 /\ microsecond d = 0.
Proof.
  unfold strptime.
  destruct (directives (chars fmt)) as [ds|]; [|discriminate].
  destruct (format_matches ds (1900, 1, 1) (chars date_str))
    as [|[[[y m] dd] [|c rest]] others]; try discriminate.
  destruct (valid_date y m dd) eqn:E; [|discriminate].
  intros H. injection H as <-. cbn. auto.
Qed.

(** [_parse_date] returns nothing, or a date of the calendar (year 1 to
    9999, month 1 to 12, a day the month has) at 00:00:00. *)
Theorem parse_date_calendar_date (date_str : string) :
  _parse_date date_str = None
  \/ exists y m d,
       _parse_date date_str = Some (mk_datetime y m d 0 0 0 0)
       /\ 1 <= y <= 9999 /\ 1 <= m <= 12 /\ 1 <= d <= days_in_month y m.
Proof.
  unfold _parse_date.
  induction date_formats as [|fmt formats IH]; [left; reflexivity|].
  cbn [parse_date_with].
  destruct (strptime date_str fmt) as [[y m d h mi s us]|] eqn:E; [|exact IH].
  right. apply strptime_valid in E as (Hv & Hh & Hm & Hs & Hu).
  cbn in *. subst. exists y, m, d. split; [reflexivity|].
  unfold valid_date in Hv. rewrite !andb_true_iff, !Z.leb_le in Hv. lia.
Qed.

End DateParser.

(* ===================================================================== *)
(** ** Further properties of the Region Detector *)
(* ===================================================================== *)

Section RegionDetectorProperties.
Import Py OCRService StampSpec.
Context {imaging : Imaging}.

(** For a positive height the two ratio tests are tests on integers. *)
Lemma ratio_bounds_int (w h : Z) :
  0 < h ->
  ((3 # 2 < inject_Z w / inject_Z h)%Q <-> 3 * h < 2 * w)
  /\ ((inject_Z w / inject_Z h < 5 # 1)%Q <-> w < 5 * h).
Proof.
  intros Hh.
  assert (Hpos : (0 < inject_Z h)%Q) by (unfold Qlt; cbn; lia).
  assert (Hne : ~ (inject_Z h == 0)%Q) by (unfold Qeq; cbn; lia).
  assert (E : (inject_Z w / inject_Z h * inject_Z h == inject_Z w)%Q).
  { rewrite Qmult_comm. apply Qmult_div_r. exact Hne. }
  split; split; intros H.
  - apply (Qmult_lt_r _ _ (inject_Z h) Hpos) in H. rewrite E in H.
    unfold Qlt in H. cbn in H. lia.
  - apply Qlt_shift_div_l; [exact Hpos|]. unfold Qlt. cbn. lia.
  - apply (Qmult_lt_r _ _ (inject_Z h) Hpos) in H. rewrite E in H.
    unfold Qlt in H. cbn in H. lia.
  - apply Qlt_shift_div_r; [exact Hpos|]. unfold Qlt. cbn. lia.
Qed.

Lemma is_stamp_sized_int_eq (w h : Z) :
  is_stamp_sized w h = is_stamp_sized_int w h.
Proof.
  apply eq_true_iff_eq. rewrite is_stamp_sized_spec.
  unfold is_stamp_sized_int. rewrite !andb_true_iff, !Z.ltb_lt.
  split.
  - intros (Hw & Hh & H1 & H2).
    destruct (ratio_bounds_int w h) as [R1 R2]; [lia|].
    apply R1 in H1. apply R2 in H2. lia.
  - intros H.
    destruct (ratio_bounds_int w h) as [R1 R2]; [lia|].
    split; [lia|]. split; [lia|]. split; [apply R1 | apply R2]; lia.
Qed.

Lemma filter_contours_integer (contours : list contour) :
  filter_contours contours
  = List.filter (fun r : Z * Z * Z * Z => let '(_, _, w, h) := r in
                                          is_stamp_sized_int w h)
      (map cv2_boundingRect contours).
Proof.
  induction contours as [|c contours IH]; [reflexivity|].
  cbn [filter_contours map List.filter].
  destruct (cv2_boundingRect c) as [[[x y] w] h].
  rewrite <- (is_stamp_sized_int_eq w h).
  destruct (is_stamp_sized w h); rewrite IH; reflexivity.
Qed.

(** The regions returned are the bounding boxes of the contours, in the
    order of the contours and as often as they occur, that pass the test
    on integers 50 < w < 300, 30 < h < 150, 3h < 2w and w < 5h: the
    division of the code decides nothing else. *)
Theorem detect_stamp_regions_integer_filter (image : ndarray) :
  _detect_stamp_regions image
  = List.filter (fun r : Z * Z * Z * Z => let '(_, _, w, h) := r in
                                          is_stamp_sized_int w h)
      (map cv2_boundingRect (cv2_findContours (cv2_Canny image 50 150))).
Proof. apply filter_contours_integer. Qed.

(** Every region returned is wider than it is high, by more than half
    and by less than five times, and its sides are within 51 to 299 and
    31 to 149 pixels. *)
Theorem detect_stamp_regions_wider_than_high (image : ndarray) :
  Forall (fun r : Z * Z * Z * Z =>
            let '(_, _, w, h) := r in
            51 <= w <= 299 /\ 31 <= h <= 149 /\ h < w
            /\ 3 * h < 2 * w /\ w < 5 * h)
         (_detect_stamp_regions image).
Proof.
  unfold _detect_stamp_regions. rewrite filter_contours_integer.
  apply List.Forall_forall. intros [[[x y] w] h] Hin.
  apply filter_In in Hin as [_ H].
  unfold is_stamp_sized_int in H.
  rewrite !andb_true_iff, !Z.ltb_lt in H. lia.
Qed.

End RegionDetectorProperties.

(* ===================================================================== *)
(** ** Further properties of the recognition step and of the pipeline *)
(* ===================================================================== *)

Section RecognitionProperties.
Import Py Re Datetime OCRService OcrModels StampSpec.
Context {imaging : Imaging}.
Variable settings : Settings.

Lemma opt_datetime_of_date (o : option datetime) :
  opt_datetime (of_date o) = Some o.
Proof. destruct o; reflexivity. Qed.

Lemma dict_get_lookup (d : dict) (key : string) :
  dict_get d key = match d !! key with Some v => v | None => PNone end.
Proof. reflexivity. Qed.

(** Building a [PassportStamp] from the dictionary of
    [_parse_stamp_text] passes validation, and gives these fields. *)
Lemma new_PassportStamp_of_parse (text raw : string) (confidence : pyfloat) (d : dict) :
  _parse_stamp_text text = Some d ->
  exists stamp,
    new_PassportStamp raw confidence d = Ok stamp
    /\ OcrModels.text stamp = raw
    /\ OcrModels.confidence stamp = confidence
    /\ raw_data stamp = Some d
    /\ airport_code stamp = None
    /\ stamp_type stamp = Some (direction text)
    /\ country stamp = option_map title (search true pattern_country text)
    /\ city stamp = option_map title (search false pattern_city text)
    /\ entry_date stamp =
       match findall false pattern_date text with
       | [] => None
       | date0 :: _ => if String.eqb (direction text) "exit" then None
                       else _parse_date date0
       end
    /\ exit_date stamp =
       match findall false pattern_date text with
       | [] => None
       | date0 :: _ => if String.eqb (direction text) "exit"
                       then _parse_date date0 else None
       end.
Proof.
  intros E.
  destruct (parse_stamp_text_lookups text)
    as (d' & E' & Hs & Hc & Hci & _ & He & Hx & _).
  rewrite E in E'. injection E' as <-.
  unfold new_PassportStamp. rewrite !dict_get_lookup, Hs, Hc, Hci, He, Hx.
  destruct (search true pattern_country text) as [country_match|];
    destruct (search false pattern_city text) as [city_match|];
    destruct (findall false pattern_date text) as [|date0 dates];
    destruct (String.eqb (direction text) "exit");
    cbn [option_map opt_str opt_datetime]; rewrite ?opt_datetime_of_date;
    eexists; (split; [reflexivity|]); cbn; auto 10.
Qed.

(** Every result of the passes has a text that is not empty. *)
Lemma run_configs_truthy (pil_image : ndarray) (r : ocr_result) :
  In r (run_configs pil_image) -> truthy (ocr_text r) = true.
Proof.
  unfold run_configs. intros Hin.
  apply in_flat_map in Hin as (config & _ & Hin).
  unfold ocr_pass in Hin.
  destruct (image_to_string pil_image config) as [text|]; [|destruct Hin].
  destruct (image_to_data_conf pil_image config) as [conf|]; [|destruct Hin].
  destruct (truthy (strip text)) eqn:E; [|destruct Hin].
  destruct Hin as [<- | []]. exact E.
Qed.

(** There are at most three results, one for each configuration. *)
Lemma run_configs_length (pil_image : ndarray) :
  (length (run_configs pil_image) <= 3)%nat.
Proof.
  unfold run_configs, configs. cbn [flat_map].
  rewrite !length_app.
  destruct (ocr_pass pil_image "--psm 6"), (ocr_pass pil_image "--psm 8"),
    (ocr_pass pil_image "--psm 13"); cbn; lia.
Qed.

Lemma process_stamp_cases (stamp_image : ndarray) :
  _process_stamp settings stamp_image = Ok None
  \/ exists stamp best d,
       _process_stamp settings stamp_image = Ok (Some stamp)
       /\ In best (run_configs (enhance_image_for_ocr stamp_image))
       /\ OcrModels.text stamp = ocr_text best
       /\ _parse_stamp_text (ocr_text best) = Some d
       /\ raw_data stamp = Some d
       /\ stamp_type stamp = Some (direction (ocr_text best))
       /\ airport_code stamp = None
       /\ ~ (is_Some (entry_date stamp) /\ is_Some (exit_date stamp)).
Proof.
  unfold _process_stamp.
  destruct (run_configs (enhance_image_for_ocr stamp_image)) as [|first others] eqn:Hrun;
    [left; reflexivity|].
  destruct (flt _ _); [left; reflexivity|].
  destruct (_parse_stamp_text (ocr_text (max_from first others))) as [d|] eqn:E;
    [|left; reflexivity].
  destruct (new_PassportStamp_of_parse _ (ocr_text (max_from first others))
              (fdiv (ocr_confidence (max_from first others)) (of_int 100)) d E)
    as (stamp & Hnew & Ht & _ & Hraw & Ha & Hs & _ & _ & He & Hx).
  right. exists stamp, (max_from first others), d.
  rewrite Hnew. cbn [bind].
  split; [reflexivity|]. split; [apply max_from_In|].
  split; [exact Ht|]. split; [exact E|]. split; [exact Hraw|].
  split; [exact Hs|]. split; [exact Ha|].
  rewrite He, Hx.
  destruct (findall false pattern_date (ocr_text (max_from first others)));
    [intros [[? H] _]; discriminate H|].
  destruct (String.eqb _ _); intros [[? H1] [? H2]]; discriminate.
Qed.

(** [_process_stamp] never raises.  A stamp that it returns is built
    from one of the recognition results: it has the text of the result,
    its raw data are the dictionary the Field Extractor makes of that
    text, its stamp type is the direction read off the text, and its
    airport code is unset, whether or not the raw data hold one. *)
Theorem process_stamp_result (stamp_image : ndarray) :
  _process_stamp settings stamp_image = Ok None
  \/ exists stamp best d,
       _process_stamp settings stamp_image = Ok (Some stamp)
       /\ In best (run_configs (enhance_image_for_ocr stamp_image))
       /\ OcrModels.text stamp = ocr_text best
       /\ _parse_stamp_text (ocr_text best) = Some d
       /\ raw_data stamp = Some d
       /\ stamp_type stamp = Some (direction (ocr_text best))
       /\ airport_code stamp = None
       /\ ~ (is_Some (entry_date stamp) /\ is_Some (exit_date stamp)).
Proof. apply process_stamp_cases. Qed.

(** What [_process_stamp] answers when the passes gave results. *)
Lemma process_stamp_of_results (stamp_image : ndarray)
    (first : ocr_result) (others : list ocr_result) :
  run_configs (enhance_image_for_ocr stamp_image) = first :: others ->
  if flt (ocr_confidence (max_from first others))
         (fmul (OCR_CONFIDENCE_THRESHOLD settings) (of_int 100))
  then _process_stamp settings stamp_image = Ok None
  else exists stamp,
         _process_stamp settings stamp_image = Ok (Some stamp)
         /\ OcrModels.text stamp = ocr_text (max_from first others)
         /\ OcrModels.confidence stamp
            = fdiv (ocr_confidence (max_from first others)) (of_int 100).
Proof.
  intros Hrun. unfold _process_stamp. rewrite Hrun.
  destruct (flt _ _); [reflexivity|].
  destruct (_parse_stamp_text (ocr_text (max_from first others))) as [d|] eqn:E;
    [|exfalso; exact (_parse_stamp_text_is_Some _ E)].
  destruct (new_PassportStamp_of_parse _ (ocr_text (max_from first others))
              (fdiv (ocr_confidence (max_from first others)) (of_int 100)) d E)
    as (stamp & Hnew & Ht & Hc & _).
  exists stamp. rewrite Hnew. cbn [bind]. auto.
Qed.

(** The threshold is applied to the percentages of the engine, against
    the float product [OCR_CONFIDENCE_THRESHOLD * 100].  A stamp that
    [_process_stamp] returns has a text that is not empty and comes from
    a result that no other result of the region exceeds in confidence
    and whose confidence does not compare below the product (it may be
    NaN); the confidence of the stamp is a hundredth of it.  A stamp is
    returned whenever there are results and none compares below the
    product, and none is returned when every result compares below
    it. *)
Theorem process_stamp_confident (stamp_image : ndarray) :
  let results := run_configs (enhance_image_for_ocr stamp_image) in
  let bar := fmul (OCR_CONFIDENCE_THRESHOLD settings) (of_int 100) in
  (forall stamp,
      _process_stamp settings stamp_image = Ok (Some stamp) ->
      truthy (OcrModels.text stamp) = true
      /\ exists best,
           In best results
           /\ OcrModels.text stamp = ocr_text best
           /\ OcrModels.confidence stamp = fdiv (ocr_confidence best) (of_int 100)
           /\ flt (ocr_confidence best) bar = false
           /\ forall r, In r results ->
                        fgt (ocr_confidence r) (ocr_confidence best) = false)
  /\ (results <> [] ->
      (forall r, In r results -> flt (ocr_confidence r) bar = false) ->
      exists stamp, _process_stamp settings stamp_image = Ok (Some stamp))
  /\ ((forall r, In r results -> flt (ocr_confidence r) bar = true) ->
      _process_stamp settings stamp_image = Ok None).
Proof.
  intros results bar. subst results bar.
  destruct (run_configs (enhance_image_for_ocr stamp_image)) as [|first others] eqn:Hrun.
  - assert (Hnone : _process_stamp settings stamp_image = Ok None)
      by (unfold _process_stamp; rewrite Hrun; reflexivity).
    split; [intros stamp H; rewrite Hnone in H; discriminate H|].
    split; [intros H; exfalso; apply H; reflexivity | intros _; exact Hnone].
  - pose proof (process_stamp_of_results stamp_image first others Hrun) as Hcase.
    pose proof (max_from_In first others) as Hin.
    destruct (flt (ocr_confidence (max_from first others))
                  (fmul (OCR_CONFIDENCE_THRESHOLD settings) (of_int 100))) eqn:Hflt.
    + split; [intros stamp H; rewrite Hcase in H; discriminate H|].
      split; [|intros _; exact Hcase].
      intros _ Hall. rewrite (Hall _ Hin) in Hflt. discriminate Hflt.
    + destruct Hcase as (stamp & Hstamp & Ht & Hc).
      split; [|split; [intros _ _; exists stamp; exact Hstamp|]].
      * intros stamp' H. rewrite Hstamp in H. injection H as <-.
        split.
        -- rewrite Ht. apply (run_configs_truthy (enhance_image_for_ocr stamp_image)).
           rewrite Hrun. exact Hin.
        -- exists (max_from first others).
           split; [exact Hin|]. split; [exact Ht|]. split; [exact Hc|].
           split; [exact Hflt|]. apply max_from_greatest.
      * intros Hall. rewrite (Hall _ Hin) in Hflt. discriminate Hflt.
Qed.


Lemma process_stamp_Ok (stamp_image : ndarray) :
  exists stamp_data, _process_stamp settings stamp_image = Ok stamp_data.
Proof.
  destruct (process_stamp_cases stamp_image) as [H | (stamp & _ & _ & H & _)];
    rewrite H; eexists; reflexivity.
Qed.

Lemma process_regions_Ok (gray : ndarray) (stamp_regions : list (Z * Z * Z * Z)) :
  exists stamps,
    process_regions settings gray stamp_regions = Ok stamps
    /\ (length stamps <= length stamp_regions)%nat.
Proof.
  induction stamp_regions as [|[[[x y] w] h] regions (stamps & IH & Hlen)].
  - exists []. split; [reflexivity | cbn; lia].
  - cbn [process_regions].
    destruct (process_stamp_Ok (crop gray x y w h)) as (stamp_data & ->).
    rewrite IH. cbn [bind].
    eexists. split; [reflexivity|].
    destruct stamp_data; cbn; lia.
Qed.

(** [process_passport_image] raises exactly when the image cannot be
    read, and then a ValueError that names the path; for an image that
    can be read it returns a list with at most one stamp for each region
    detected. *)
Theorem process_passport_image_outcomes (image_path : string) :
  match cv2_imread image_path with
  | None =>
      process_passport_image settings image_path
      = Raise (ValueError ("Could not load image: " ++ image_path))
  | Some image =>
      exists stamps,
        process_passport_image settings image_path = Ok stamps
        /\ (length stamps
            <= length (_detect_stamp_regions (cv2_cvtColor_gray image)))%nat
  end.
Proof.
  unfold process_passport_image.
  destruct (cv2_imread image_path) as [image|]; [|reflexivity].
  apply process_regions_Ok.
Qed.

End RecognitionProperties.

Lemma process_stamp_confident_witness :
  let settings := {| OCR_CONFIDENCE_THRESHOLD := fdiv (of_int 2) (of_int 5) |} in
  exists stamp,
    @OCRService._process_stamp Fixtures.stub_imaging settings [(60, 40, 120, 60)]
    = Ok (Some stamp).
Proof.
  intros settings.
  apply (proj1 (proj2 (@process_stamp_confident Fixtures.stub_imaging settings
                         [(60, 40, 120, 60)]))).
  - intros H. apply (f_equal (@length _)) in H. vm_compute in H. discriminate H.
  - intros r Hin. vm_compute in Hin.
    destruct Hin as [<- | [<- | []]]; reflexivity.
Defined.

(* ===================================================================== *)
(** ** Further properties of the Candidate Validator *)
(* ===================================================================== *)

Section ValidatorProperties.
Import Py Datetime OCRService OcrModels StampSpec.

Lemma lex_gt_le_trans (a b c : list Z) :
  length a = length b -> length c = length b ->
  lex_gt a b = true -> lex_gt c b = false -> lex_gt a c = true.
Proof.
  revert b c. induction a as [|x a IH]; intros [|y b] [|z c] Ha Hc Hab Hcb;
    try discriminate.
  cbn in *.
  apply orb_true_iff in Hab. apply orb_false_iff in Hcb as [Hyz Hcb].
  apply Z.ltb_ge in Hyz. apply orb_true_iff.
  destruct (Z.eq_dec z x) as [-> | Hne].
  - destruct Hab as [Hab | Hab]; [apply Z.ltb_lt in Hab; lia|].
    apply andb_true_iff in Hab as [Hxy Hab]. apply Z.eqb_eq in Hxy. subst y.
    rewrite Z.eqb_refl in Hcb. cbn in Hcb.
    right. rewrite Z.eqb_refl. cbn.
    apply (IH b c); congruence.
  - left. apply Z.ltb_lt.
    destruct Hab as [Hab | Hab].
    + apply Z.ltb_lt in Hab. lia.
    + apply andb_true_iff in Hab as [Hxy _]. apply Z.eqb_eq in Hxy. lia.
Qed.

(** A date later than [later] is later than everything up to [later]. *)
Lemma gt_le_trans (d now later : datetime) :
  gt d later = true -> le now later = true -> gt d now = true.
Proof.
  unfold le, gt. rewrite negb_true_iff. intros H1 H2.
  apply (lex_gt_le_trans _ (components later)); auto.
Qed.

(** Time does not undo an acceptance: a stamp accepted when the clock
    shows [now] is accepted when it shows any [later] time. *)
Theorem validate_stamp_data_stays_accepted
    (stamp : PassportStamp) (now later : datetime) (n m : nat) :
  le now later = true ->
  fst (validate_stamp_data (at_time now) stamp n) = true ->
  fst (validate_stamp_data (at_time later) stamp m) = true.
Proof.
  intros Hle. unfold validate_stamp_data, in_future, datetime_now, ret, at_time.
  destruct (entry_date stamp) as [d1|], (exit_date stamp) as [d2|]; cbn -[gt].
  - destruct (gt d1 later) eqn:E1.
    { rewrite (gt_le_trans _ _ _ E1 Hle). discriminate. }
    destruct (gt d1 now); [discriminate|].
    destruct (gt d2 later) eqn:E2.
    { rewrite (gt_le_trans _ _ _ E2 Hle). discriminate. }
    destruct (gt d2 now); [discriminate|]. destruct (gt d1 d2); auto.
  - destruct (gt d1 later) eqn:E1.
    { rewrite (gt_le_trans _ _ _ E1 Hle). discriminate. }
    destruct (gt d1 now); [discriminate|]. auto.
  - destruct (gt d2 later) eqn:E2.
    { rewrite (gt_le_trans _ _ _ E2 Hle). discriminate. }
    destruct (gt d2 now); [discriminate|]. auto.
  - destruct (truthy_str (country stamp)); auto.
Qed.

(** The validator reads the clock once for each date of the stamp that
    it looks at, never more than twice, and not at all for a stamp
    without dates. *)
Theorem validate_stamp_data_clock_reads
    (clock : nat -> datetime) (stamp : PassportStamp) (n : nat) :
  (n <= snd (validate_stamp_data clock stamp n)
   <= n + (if truthy_date (entry_date stamp) then 1 else 0)
        + (if truthy_date (exit_date stamp) then 1 else 0))%nat
  /\ (fst (validate_stamp_data clock stamp n) = true ->
      snd (validate_stamp_data clock stamp n)
      = (n + (if truthy_date (entry_date stamp) then 1 else 0)
           + (if truthy_date (exit_date stamp) then 1 else 0))%nat).
Proof.
  unfold validate_stamp_data, in_future, datetime_now, ret.
  destruct (entry_date stamp) as [d1|], (exit_date stamp) as [d2|]; cbn -[gt].
  - destruct (gt d1 (clock n)); cbn -[gt]; [split; [lia | discriminate]|].
    destruct (gt d2 (clock (S n))); cbn -[gt]; [split; [lia | discriminate]|].
    destruct (gt d1 d2); cbn -[gt]; split; try lia; intros; lia.
  - destruct (gt d1 (clock n)); cbn -[gt]; split; try lia; try discriminate; intros; lia.
  - destruct (gt d2 (clock n)); cbn -[gt]; split; try lia; try discriminate; intros; lia.
  - destruct (truthy_str (country stamp)); cbn; split; try lia; intros; lia.
Qed.

End ValidatorProperties.

Lemma validate_stamp_data_stays_accepted_witness :
  let stamp := {| OcrModels.text := "ENTRY 03/14/2023";
                  OcrModels.confidence := fdiv (of_int 4) (of_int 5);
                  OcrModels.country := None;
                  OcrModels.city := None;
                  OcrModels.entry_date := Some (Datetime.mk_datetime 2023 3 14 0 0 0 0);
                  OcrModels.exit_date := None;
                  OcrModels.stamp_type := Some "entry";
                  OcrModels.airport_code := None;
                  OcrModels.raw_data := None |} in
  fst (OCRService.validate_stamp_data
         (StampSpec.at_time (Datetime.mk_datetime 2025 6 1 12 0 0 0)) stamp 0%nat) = true.
Proof.
  cbv zeta.
  apply (validate_stamp_data_stays_accepted _
           (Datetime.mk_datetime 2024 1 1 0 0 0 0)
           (Datetime.mk_datetime 2025 6 1 12 0 0 0) 0%nat 0%nat); reflexivity.
Defined.

(* ===================================================================== *)
(** ** Further properties of the Email Parser *)
(* ===================================================================== *)

Section EmailParserProperties.
Import Py Re EmailModels EmailService EmailSpec StampSpec.

(** Every element of [re.findall] is a piece of the text at which the
    pattern matches. *)
Lemma findall_from_spec (ic : bool) (r : regex) (t : ctext) :
  forall (skip : nat) (m : ctext),
    In m (findall_from ic r skip t) ->
    exists before rest others,
      t = (before ++ m ++ rest)%list
      /\ matches ic r (m ++ rest) = rest :: others.
Proof.
  induction t as [|c t IH]; intros skip m Hin; [destruct Hin|].
  cbn [findall_from] in Hin.
  assert (Htail : forall k, In m (findall_from ic r k t) ->
            exists before rest others,
              c :: t = (before ++ m ++ rest)%list
              /\ matches ic r (m ++ rest) = rest :: others).
  { intros k Hk. destruct (IH k m Hk) as (before & rest & others & -> & Hm).
    exists (c :: before), rest, others. split; [reflexivity | exact Hm]. }
  destruct skip as [|k]; [|exact (Htail _ Hin)].
  destruct (match_here ic r (c :: t)) as [[m' n]|] eqn:E; [|exact (Htail _ Hin)].
  destruct Hin as [<- | Hin]; [|exact (Htail _ Hin)].
  apply match_here_spec in E as (_ & rest & Ht & others & Hm).
  exists [], rest, others. split; [exact Ht|]. rewrite <- Ht. exact Hm.
Qed.

(** What the loop over the patterns leaves under each key: nothing
    without a match, the match itself when there is one, the list of the
    matches when there are several; and no other key. *)
Lemma extract_lookup (body : string) :
  (forall key pattern,
      In (key, pattern) patterns ->
      extract body !! key =
      match findall true pattern body with
      | [] => None
      | found => Some (one_or_all found)
      end)
  /\ (forall key, ~ In key (map fst patterns) -> extract body !! key = None).
Proof.
  unfold extract, patterns. cbn [extract_with map fst].
  split.
  - intros key pattern Hin. cbn [In] in Hin.
    repeat (destruct Hin as [Hin | Hin]; [injection Hin as <- <-|]);
      [..|destruct Hin];
      destruct (findall true pattern_flight_number body);
      destruct (findall true pattern_departure_date body);
      destruct (findall true pattern_departure_time body);
      destruct (findall true pattern_airport_code body);
      destruct (findall true pattern_airline body);
      repeat (rewrite (lookup_insert_ne (M := gmap string)) by discriminate);
      rewrite ?lookup_insert_eq, ?lookup_empty; reflexivity.
  - intros key Hkey.
    destruct (findall true pattern_flight_number body);
      destruct (findall true pattern_departure_date body);
      destruct (findall true pattern_departure_time body);
      destruct (findall true pattern_airport_code body);
      destruct (findall true pattern_airline body);
      repeat (rewrite (lookup_insert_ne (M := gmap string))
                by (intros <-; apply Hkey; cbn [In]; tauto));
      apply lookup_empty.
Qed.

(** The dictionary of the extraction holds a key exactly for the
    patterns that match: under it the match as a string when there is
    one, the list of the matches when there are several; it holds no key
    besides those of the five patterns. *)
Theorem extract_dictionary (body : string) :
  (forall key pattern,
      In (key, pattern) patterns ->
      extract body !! key =
      match findall true pattern body with
      | [] => None
      | [m] => Some (PStr m)
      | found => Some (PList found)
      end)
  /\ (forall key, is_Some (extract body !! key) -> In key (map fst patterns)).
Proof.
  destruct (extract_lookup body) as [Hin Hout]. split.
  - intros key pattern H. rewrite (Hin key pattern H).
    destruct (findall true pattern body) as [|m [|m' found]]; reflexivity.
  - intros key [v Hv].
    destruct (in_dec string_dec key (map fst patterns)) as [H | H]; [exact H|].
    rewrite (Hout key H) in Hv. discriminate Hv.
Qed.

(** How validation sees the value extracted for a string field. *)
Lemma extract_field (body key : string) (pattern : regex) :
  In (key, pattern) patterns ->
  opt_str (dict_get (extract body) key) =
  match findall true pattern body with
  | [] => Some None
  | [m] => Some (Some m)
  | _ :: _ :: _ => None
  end.
Proof.
  intros Hin. unfold dict_get.
  rewrite (proj1 (extract_lookup body) key pattern Hin).
  destruct (findall true pattern body) as [|m [|m' found]]; reflexivity.
Qed.

(** The parser returns a confirmation exactly when the email holds a
    keyword, some pattern matches the body, and none of the flight
    number, date, time and airline patterns matches more than once. *)
Theorem parse_flight_confirmation_returns_iff (email : EmailMessage) :
  (exists fc, parse_flight_confirmation email = Ok (Some fc)) <->
  mentions_keyword email /\ some_pattern_matches email
  /\ Forall (fun field : string * regex =>
               (length (findall true (snd field) (body email)) <= 1)%nat)
            string_fields.
Proof.
  rewrite <- is_confirmation_spec, <- extract_truthy_spec.
  unfold string_fields.
  rewrite !Forall_cons, Forall_nil. cbn [snd].
  pose proof (extract_field (body email) "flight_number" pattern_flight_number) as Hn.
  pose proof (extract_field (body email) "departure_date" pattern_departure_date) as Hd.
  pose proof (extract_field (body email) "departure_time" pattern_departure_time) as Ht.
  pose proof (extract_field (body email) "airline" pattern_airline) as Ha.
  unfold patterns in Hn, Hd, Ht, Ha. cbn [In] in Hn, Hd, Ht, Ha.
  specialize (Hn ltac:(tauto)). specialize (Hd ltac:(tauto)).
  specialize (Ht ltac:(tauto)). specialize (Ha ltac:(tauto)).
  split.
  - intros (fc & E).
    apply parse_flight_confirmation_inv in E
      as (Hc & Htr & number & date & time & name & En & Ed & Et & Ea & _).
    rewrite Hn in En. rewrite Hd in Ed. rewrite Ht in Et. rewrite Ha in Ea.
    split; [exact Hc|]. split; [exact Htr|].
    destruct (findall true pattern_flight_number (body email)) as [|? [|? ?]];
      try discriminate En;
      destruct (findall true pattern_departure_date (body email)) as [|? [|? ?]];
      try discriminate Ed;
      destruct (findall true pattern_departure_time (body email)) as [|? [|? ?]];
      try discriminate Et;
      destruct (findall true pattern_airline (body email)) as [|? [|? ?]];
      try discriminate Ea; cbn; repeat split; lia.
  - intros (Hc & Htr & H1 & H2 & H3 & H4 & _).
    destruct (findall true pattern_flight_number (body email)) as [|? [|? ?]];
      [| |cbn in H1; lia];
      (destruct (findall true pattern_departure_date (body email)) as [|? [|? ?]];
       [| |cbn in H2; lia]);
      (destruct (findall true pattern_departure_time (body email)) as [|? [|? ?]];
       [| |cbn in H3; lia]);
      (destruct (findall true pattern_airline (body email)) as [|? [|? ?]];
       [| |cbn in H4; lia]);
      eexists; apply parse_flight_confirmation_Ok; eassumption.
Qed.

(** The parser raises exactly when the email holds a keyword and one of
    the flight number, date, time and airline patterns matches more than
    once; what it raises is the ValidationError that names these fields,
    in the order of the model. *)
Theorem parse_flight_confirmation_raises_iff (email : EmailMessage) (e : exception) :
  let refused_fields :=
    map fst (List.filter
               (fun field : string * regex =>
                  (2 <=? length (findall true (snd field) (body email)))%nat)
               string_fields) in
  parse_flight_confirmation email = Raise e <->
  e = ValidationError refused_fields
  /\ mentions_keyword email /\ refused_fields <> [].
Proof.
  intros refused_fields. subst refused_fields.
  rewrite <- is_confirmation_spec.
  pose proof (extract_field (body email) "flight_number" pattern_flight_number) as Hn.
  pose proof (extract_field (body email) "departure_date" pattern_departure_date) as Hd.
  pose proof (extract_field (body email) "departure_time" pattern_departure_time) as Ht.
  pose proof (extract_field (body email) "airline" pattern_airline) as Ha.
  pose proof (proj2 (extract_truthy_spec email)) as Htruthy.
  unfold some_pattern_matches, patterns in Htruthy.
  unfold patterns in Hn, Hd, Ht, Ha. cbn [In] in Hn, Hd, Ht, Ha.
  specialize (Hn ltac:(tauto)). specialize (Hd ltac:(tauto)).
  specialize (Ht ltac:(tauto)). specialize (Ha ltac:(tauto)).
  assert (Hmatch : forall key pattern m found,
             In (key, pattern) patterns ->
             findall true pattern (body email) = m :: found ->
             dict_truthy (extract (body email)) = true).
  { intros key pattern m found Hin E. apply Htruthy.
    exists key, pattern. split; [exact Hin|]. rewrite E. discriminate. }
  unfold patterns in Hmatch.
  unfold parse_flight_confirmation, new_FlightConfirmation, string_fields.
  cbn [List.filter snd].
  rewrite Hn, Hd, Ht, Ha.
  destruct (findall true pattern_flight_number (body email)) as [|? [|? ?]] eqn:E1;
    destruct (findall true pattern_departure_date (body email)) as [|? [|? ?]] eqn:E2;
    destruct (findall true pattern_departure_time (body email)) as [|? [|? ?]] eqn:E3;
    destruct (findall true pattern_airline (body email)) as [|? [|? ?]] eqn:E4;
    cbn [length Nat.leb map fst];
    try (split; [destruct (is_confirmation email && _); cbn; discriminate
                | intros (_ & _ & H); congruence]);
    (assert (Hd' : dict_truthy (extract (body email)) = true)
       by (first [ eapply Hmatch; [|exact E1] | eapply Hmatch; [|exact E2]
                 | eapply Hmatch; [|exact E3] | eapply Hmatch; [|exact E4] ];
           cbn [In]; repeat (first [left; reflexivity | right])));
    rewrite Hd', andb_true_r;
    destruct (is_confirmation email); cbn;
    (split; [intros H; first [discriminate H | injection H as <-; split; [reflexivity | split; [reflexivity | discriminate]]]
            | intros (-> & H & _); first [reflexivity | discriminate H]]).
Qed.

Lemma lower_same_letters (ic : bool) (w m : ctext) :
  Forall2 (fun a c => test ic (Ascii.eqb a) c = true) w m ->
  map to_lower m = map to_lower w.
Proof.
  induction 1 as [|a c w m Hac _ IH]; [reflexivity|].
  apply test_eqb_same_letter in Hac as (Hl & _ & _).
  cbn. rewrite Hl, IH. reflexivity.
Qed.

(** A match of the airline pattern is one of the eight names, in the
    letter case of the body. *)
Lemma findall_airline (body found : string) :
  In found (findall true pattern_airline body) ->
  occurs_in found body
  /\ exists name, In name airline_names /\ lower found = lower name.
Proof.
  unfold findall. intros Hin.
  apply in_map_iff in Hin as (m & <- & Hin).
  apply findall_from_spec in Hin as (before & rest & others & Ht & Hm).
  split; [exists before, rest; rewrite chars_str; exact Ht|].
  assert (Hin : In rest (matches true pattern_airline (m ++ rest)))
    by (rewrite Hm; left; reflexivity).
  apply matches_Alts in Hin as (r' & Hr' & Hin).
  assert (Hword : forall w : string,
             r' = Word w -> lower (str m) = lower w).
  { intros w ->. apply matches_Word_from in Hin as (m' & Hm' & HF).
    apply app_inv_tail in Hm'. subst m'.
    unfold lower. rewrite chars_str. f_equal.
    exact (lower_same_letters true _ _ HF). }
  cbn [In] in Hr'. unfold airline_names.
  repeat (destruct Hr' as [Hr' | Hr'];
          [eexists; split; [|exact (Hword _ (eq_sym Hr'))]; cbn [In]; tauto|]).
  destruct Hr'.
Qed.

Lemma confirmation_fields (email : EmailMessage) (fc : FlightConfirmation) :
  parse_flight_confirmation email = Ok (Some fc) ->
  email_id fc = message_id email
  /\ flight_number fc = head (findall true pattern_flight_number (body email))
  /\ departure_date fc = head (findall true pattern_departure_date (body email))
  /\ departure_time fc = head (findall true pattern_departure_time (body email))
  /\ airline fc = head (findall true pattern_airline (body email))
  /\ passenger_name fc = None
  /\ booking_reference fc = None.
Proof.
  intros E.
  apply parse_flight_confirmation_inv in E
    as (_ & _ & number & date & time & name & En & Ed & Et & Ea & ->).
  rewrite (extract_field _ _ pattern_flight_number) in En by (cbn; tauto).
  rewrite (extract_field _ _ pattern_departure_date) in Ed by (cbn; tauto).
  rewrite (extract_field _ _ pattern_departure_time) in Et by (cbn; tauto).
  rewrite (extract_field _ _ pattern_airline) in Ea by (cbn; tauto).
  cbn [email_id flight_number departure_date departure_time airline
       passenger_name booking_reference].
  destruct (findall true pattern_flight_number (body email)) as [|? [|? ?]];
    try discriminate En;
    destruct (findall true pattern_departure_date (body email)) as [|? [|? ?]];
    try discriminate Ed;
    destruct (findall true pattern_departure_time (body email)) as [|? [|? ?]];
    try discriminate Et;
    destruct (findall true pattern_airline (body email)) as [|? [|? ?]];
    try discriminate Ea;
    injection En as <-; injection Ed as <-; injection Et as <-; injection Ea as <-;
    cbn; auto 10.
Qed.

(** The fields of a confirmation that is returned: its id is the id of
    the message; its flight number, departure date, departure time and
    airline are the one match of their pattern in the body, or none
    when the pattern has no match; the passenger name and the booking
    reference are never set. *)
Theorem parse_flight_confirmation_fields (email : EmailMessage) (fc : FlightConfirmation) :
  parse_flight_confirmation email = Ok (Some fc) ->
  email_id fc = message_id email
  /\ flight_number fc = head (findall true pattern_flight_number (body email))
  /\ departure_date fc = head (findall true pattern_departure_date (body email))
  /\ departure_time fc = head (findall true pattern_departure_time (body email))
  /\ airline fc = head (findall true pattern_airline (body email))
  /\ passenger_name fc = None
  /\ booking_reference fc = None.
Proof. apply confirmation_fields. Qed.

(** For a body of ASCII characters, the airline of a confirmation that
    is returned stands in the body and is one of the eight airline names
    up to letter case: it is kept as the body writes it.  (Outside
    ASCII the letter case of Python is wider than the one of this
    model.) *)
Theorem parse_flight_confirmation_airline (email : EmailMessage)
    (fc : FlightConfirmation) (name : string) :
  isascii (body email) = true ->
  parse_flight_confirmation email = Ok (Some fc) ->
  airline fc = Some name ->
  occurs_in name (body email)
  /\ exists listed, In listed airline_names /\ lower name = lower listed.
Proof.
  intros _ E Ha.
  apply confirmation_fields in E as (_ & _ & _ & _ & Hair & _).
  rewrite Hair in Ha. apply findall_airline.
  destruct (findall true pattern_airline (body email)) as [|m found];
    [discriminate Ha|].
  injection Ha as <-. left. reflexivity.
Qed.

(** For a subject and a body of ASCII characters, the classification
    does not look at their letter case.  (Outside ASCII it does: Python
    upper-cases a sharp s to SS, so that a text is classified after
    upper-casing that was not before.) *)
Theorem is_confirmation_ignores_case (email : EmailMessage) :
  isascii (subject email) = true ->
  isascii (body email) = true ->
  is_confirmation
    {| message_id := message_id email;
       subject := upper (subject email);
       sender := sender email;
       received_at := received_at email;
       body := upper (body email);
       parsed_data := parsed_data email |}
  = is_confirmation email.
Proof.
  intros _ _.
  unfold is_confirmation. cbn [subject body]. rewrite !lower_upper. reflexivity.
Qed.

End EmailParserProperties.

Lemma parse_flight_confirmation_fields_witness :
  exists fc,
    EmailService.parse_flight_confirmation
      (Fixtures.email "Your itinerary" "Flight UA 512 at 10:30 PM") = Ok (Some fc)
    /\ EmailModels.email_id fc = "18c2f0a1"
    /\ EmailModels.flight_number fc
       = head (Re.findall true EmailService.pattern_flight_number
                 "Flight UA 512 at 10:30 PM").
Proof.
  set (email := Fixtures.email "Your itinerary" "Flight UA 512 at 10:30 PM").
  assert (E : exists fc, EmailService.parse_flight_confirmation email = Ok (Some fc)).
  { eexists. apply parse_flight_confirmation_Ok; vm_compute; reflexivity. }
  destruct E as [fc E]. exists fc. split; [exact E|].
  destruct (parse_flight_confirmation_fields email fc E) as (H1 & H2 & _).
  split; [exact H1 | exact H2].
Defined.

Lemma is_confirmation_ignores_case_witness :
  EmailService.is_confirmation
    (Fixtures.email "YOUR BOARDING PASS" "GATE B12, SEAT 14C")
  = EmailService.is_confirmation
      (Fixtures.email "Your boarding pass" "Gate B12, seat 14C")
  /\ EmailService.is_confirmation
       (Fixtures.email "Your boarding pass" "Gate B12, seat 14C") = true.
Proof.
  split; [|reflexivity].
  exact (is_confirmation_ignores_case
           (Fixtures.email "Your boarding pass" "Gate B12, seat 14C")
           eq_refl eq_refl).
Defined.

Lemma parse_flight_confirmation_airline_witness :
  exists fc,
    EmailService.parse_flight_confirmation
      (Fixtures.email "Your Delta Flight Confirmation" "DELTA DL 1234 03/14/2023")
    = Ok (Some fc)
    /\ EmailModels.airline fc = Some "DELTA"
    /\ exists listed, In listed StampSpec.airline_names
                      /\ Py.lower "DELTA" = Py.lower listed.
Proof.
  set (email := Fixtures.email "Your Delta Flight Confirmation"
                  "DELTA DL 1234 03/14/2023").
  assert (E : exists fc, EmailService.parse_flight_confirmation email = Ok (Some fc)
                         /\ EmailModels.airline fc = Some "DELTA").
  { eexists. split; [apply parse_flight_confirmation_Ok; vm_compute; reflexivity|].
    reflexivity. }
  destruct E as (fc & E & Ha). exists fc. split; [exact E|]. split; [exact Ha|].
  exact (proj2 (parse_flight_confirmation_airline email fc "DELTA" eq_refl E Ha)).
Defined.

(* ===================================================================== *)
(** ** Properties of the body extraction *)
(* ===================================================================== *)

Section EmailBodyProperties.
Import Py EmailBody.
Variable get_text : string -> string.

Lemma append_assoc (a b c : string) : ((a ++ b) ++ c = a ++ (b ++ c))%string.
Proof.
  induction a as [|x a IH]; [reflexivity|].
  change (String x ((a ++ b) ++ c) = String x (a ++ (b ++ c)))%string.
  rewrite IH. reflexivity.
Qed.

Lemma append_empty_r (a : string) : (a ++ "")%string = a.
Proof.
  induction a as [|x a IH]; [reflexivity|].
  change (String x (a ++ "") = String x a)%string.
  rewrite IH. reflexivity.
Qed.

Lemma append_empty_l (a : string) : ("" ++ a)%string = a.
Proof. reflexivity. Qed.

Lemma join_app (l1 l2 : list string) :
  join (l1 ++ l2) = (join l1 ++ join l2)%string.
Proof.
  induction l1 as [|x l1 IH]; [reflexivity|].
  change (join ((x :: l1) ++ l2)) with (x ++ join (l1 ++ l2))%string.
  change (join (x :: l1)) with (x ++ join l1)%string.
  rewrite IH, append_assoc. reflexivity.
Qed.

(** The parts are read in order: every part that is not text is skipped,
    a text part without data makes the extraction fail with a KeyError,
    and otherwise the body is the text of the text parts, one after the
    other, after what was there before. *)
Lemma extract_parts_spec (ps : list part) (body : string) :
  extract_parts get_text ps body =
  if forallb (fun p => negb (is_text_part p) || has_data p) ps
  then Some (body ++ join (map (part_text get_text) (List.filter is_text_part ps)))
  else None.
Proof.
  revert body. induction ps as [|[mime data] ps IH]; intros body.
  - cbn. rewrite append_empty_r. reflexivity.
  - cbn [extract_parts forallb List.filter].
    unfold is_text_part at 1 3, has_data at 1. cbn [part_mimeType part_data].
    destruct (String.eqb mime "text/plain") eqn:E1; cbn [orb negb].
    + destruct data as [data|]; [|reflexivity].
      rewrite IH. cbn [andb orb].
      destruct (forallb _ ps); [|reflexivity].
      unfold join. cbn [map fold_right]. unfold part_text at 2.
      cbn [part_mimeType part_data]. rewrite E1, append_assoc. reflexivity.
    + destruct (String.eqb mime "text/html") eqn:E2; cbn [orb negb].
      * destruct data as [data|]; [|reflexivity].
        rewrite IH. cbn [andb orb].
        destruct (forallb _ ps); [|reflexivity].
        unfold join. cbn [map fold_right]. unfold part_text at 2.
        cbn [part_mimeType part_data]. rewrite E1, append_assoc. reflexivity.
      * exact (IH body).
Qed.

(** For a message with parts, [_extract_email_body] fails exactly when
    a plain-text or HTML part has no data; otherwise the body is the
    text of these parts in their order, and the other parts, like the
    payload's own type and data, count for nothing. *)
Theorem extract_email_body_multipart
    (mime : string) (own_data : option string) (ps : list part) :
  _extract_email_body get_text
    {| mimeType := mime; data := own_data; parts := Some ps |}
  = if forallb (fun p => negb (is_text_part p) || has_data p) ps
    then Some (join (map (part_text get_text) (List.filter is_text_part ps)))
    else None.
Proof.
  unfold _extract_email_body. cbn [parts]. apply extract_parts_spec.
Qed.

(** Splitting the parts in two splits the body in two. *)
Theorem extract_email_body_app (ps1 ps2 : list part) (body1 body2 : string) :
  extract_parts get_text ps1 "" = Some body1 ->
  extract_parts get_text ps2 "" = Some body2 ->
  extract_parts get_text (ps1 ++ ps2) "" = Some (body1 ++ body2)%string.
Proof.
  rewrite !extract_parts_spec, forallb_app, List.filter_app, map_app.
  destruct (forallb _ ps1); [|discriminate].
  destruct (forallb _ ps2); [|discriminate].
  intros H1 H2. injection H1 as <-. injection H2 as <-.
  rewrite !append_empty_l, join_app. reflexivity.
Qed.

End EmailBodyProperties.

Lemma extract_email_body_app_witness :
  EmailBody.extract_parts (fun html => html)
    ([{| EmailBody.part_mimeType := "text/plain";
         EmailBody.part_data := Some "Your flight " |}]
     ++ [{| EmailBody.part_mimeType := "application/pdf";
            EmailBody.part_data := None |};
         {| EmailBody.part_mimeType := "text/html";
            EmailBody.part_data := Some "DL 1234" |}])
    "" = Some ("Your flight " ++ "DL 1234")%string.
Proof.
  apply extract_email_body_app; reflexivity.
Defined.

(* ===================================================================== *)
(** ** Properties of the Vision stamp parser and of the storage paths *)
(* ===================================================================== *)

Section VisionParser.
Import Py Re Datetime GoogleCloudService StampSpec.
Variable strftime_Ymd : datetime -> string.

(** What is under each key of the dictionary of
    [_parse_stamp_text_vision]. *)
Lemma parse_stamp_text_vision_lookups (text : string) :
  let d := _parse_stamp_text_vision strftime_Ymd text in
  let date :=
    match findall false pattern_date text with
    | [] => None
    | date_str :: _ => first_format vision_date_formats date_str
    end in
  d !! "stamp_type" = Some (JStr (direction text))
  /\ d !! "confidence" = Some (JNum (1 # 2))
  /\ d !! "city" = Some JNull
  /\ d !! "country" = Some match search true pattern_country text with
                           | Some m => JStr (title m)
                           | None => JNull
                           end
  /\ d !! "airport_code" = Some match search false pattern_airport_code text with
                                | Some m => JStr m
                                | None => JNull
                                end
  /\ d !! "entry_date" = Some match date with
                              | Some parsed_date =>
                                  if String.eqb (direction text) "exit" then JNull
                                  else JStr (strftime_Ymd parsed_date)
                              | None => JNull
                              end
  /\ d !! "exit_date" = Some match date with
                             | Some parsed_date =>
                                 if String.eqb (direction text) "exit"
                                 then JStr (strftime_Ymd parsed_date) else JNull
                             | None => JNull
                             end
  /\ forall key,
       ~ In key ["stamp_type"; "confidence"; "city"; "country"; "airport_code";
                 "entry_date"; "exit_date"] ->
       d !! key = None.
Proof.
  cbv zeta. unfold _parse_stamp_text_vision, direction.
  destruct (findall false pattern_date text) as [|date_str dates];
    [|destruct (first_format vision_date_formats date_str) as [parsed_date|]];
    destruct (str_in "ENTRY" (upper text) || str_in "ARRIVAL" (upper text));
    destruct (str_in "EXIT" (upper text) || str_in "DEPARTURE" (upper text));
    destruct (search true pattern_country text) as [country_match|];
    destruct (search false pattern_airport_code text) as [airport_match|];
    cbn [String.eqb Ascii.eqb Bool.eqb];
    repeat (split;
            [repeat (rewrite lookup_insert_ne by discriminate);
             rewrite ?lookup_insert_eq; reflexivity|]);
    intros key Hkey;
    repeat (rewrite lookup_insert_ne
              by (intros <-; apply Hkey; cbn [In]; tauto));
    apply lookup_empty.
Qed.

(** The dictionary of [_parse_stamp_text_vision] always has the same
    seven keys, whatever the text (the empty text included); its
    confidence is always 0.5 and its city is always null. *)
Theorem parse_stamp_text_vision_keys (text : string) :
  let d := _parse_stamp_text_vision strftime_Ymd text in
  (forall key,
      is_Some (d !! key) <->
      In key ["stamp_type"; "confidence"; "city"; "country"; "airport_code";
              "entry_date"; "exit_date"])
  /\ d !! "confidence" = Some (JNum (1 # 2))
  /\ d !! "city" = Some JNull
  /\ d !! "stamp_type" = Some (JStr (direction text)).
Proof.
  cbv zeta.
  destruct (parse_stamp_text_vision_lookups text)
    as (Hs & Hconf & Hcity & Hcountry & Hair & He & Hx & Hother).
  split; [|auto].
  intros key. split.
  - intros [v Hv].
    destruct (in_dec string_dec key
                ["stamp_type"; "confidence"; "city"; "country"; "airport_code";
                 "entry_date"; "exit_date"]) as [Hin | Hout]; [exact Hin|].
    rewrite (Hother key Hout) in Hv. discriminate Hv.
  - cbn [In].
    intros [<- | [<- | [<- | [<- | [<- | [<- | [<- | []]]]]]]]; eauto.
Qed.

(** The four formats of the Vision parser are the first four of
    [_parse_date]: a date the one reads, the other reads the same. *)
Lemma first_format_parse_date (date_str : string) (d : datetime) :
  first_format vision_date_formats date_str = Some d ->
  OCRService._parse_date date_str = Some d.
Proof.
  unfold OCRService._parse_date, OCRService.date_formats, vision_date_formats.
  cbn [first_format OCRService.parse_date_with].
  destruct (strptime date_str "%m/%d/%Y"); [auto|].
  destruct (strptime date_str "%m/%d/%y"); [auto|].
  destruct (strptime date_str "%d/%m/%Y"); [auto|].
  destruct (strptime date_str "%d/%m/%y"); [auto|].
  discriminate.
Qed.

(** The two stamp parsers agree: on every text the Vision parser has,
    under [country], [airport_code] and [stamp_type], what the OCR
    parser has (null for a key the OCR parser leaves out); and a date
    that the Vision parser reports is, under the same key, the date of
    the OCR parser written by [strftime]. *)
Theorem parse_stamp_text_vision_agrees (text : string) :
  exists d_ocr,
    OCRService._parse_stamp_text text = Some d_ocr
    /\ (forall key, In key ["country"; "airport_code"; "stamp_type"] ->
                    _parse_stamp_text_vision strftime_Ymd text !! key
                    = Some (to_json strftime_Ymd (d_ocr !! key)))
    /\ (forall key written,
          In key ["entry_date"; "exit_date"] ->
          _parse_stamp_text_vision strftime_Ymd text !! key = Some (JStr written) ->
          exists date, d_ocr !! key = Some (PDate date)
                       /\ written = strftime_Ymd date).
Proof.
  destruct (parse_stamp_text_lookups text)
    as (d & E & Hs & Hc & _ & Ha & He & Hx & _).
  destruct (parse_stamp_text_vision_lookups text)
    as (Vs & _ & _ & Vc & Va & Ve & Vx & _).
  exists d. split; [exact E|]. split.
  - intros key Hin. cbn [In] in Hin.
    destruct Hin as [<- | [<- | [<- | []]]].
    + rewrite Vc, Hc.
      change OCRService.pattern_country with pattern_country.
      destruct (search true pattern_country text); reflexivity.
    + rewrite Va, Ha.
      change OCRService.pattern_airport_code with pattern_airport_code.
      destruct (search false pattern_airport_code text); reflexivity.
    + rewrite Vs, Hs. reflexivity.
  - intros key written Hin Hv. cbn [In] in Hin.
    change OCRService.pattern_date with pattern_date in He, Hx.
    destruct Hin as [<- | [<- | []]].
    + rewrite Ve in Hv. rewrite He.
      destruct (findall false pattern_date text) as [|date_str dates];
        [discriminate Hv|].
      destruct (first_format vision_date_formats date_str) as [date|] eqn:Ef;
        [|discriminate Hv].
      rewrite (first_format_parse_date _ _ Ef).
      destruct (String.eqb (direction text) "exit"); [discriminate Hv|].
      injection Hv as <-. exists date. split; reflexivity.
    + rewrite Vx in Hv. rewrite Hx.
      destruct (findall false pattern_date text) as [|date_str dates];
        [discriminate Hv|].
      destruct (first_format vision_date_formats date_str) as [date|] eqn:Ef;
        [|discriminate Hv].
      rewrite (first_format_parse_date _ _ Ef).
      destruct (String.eqb (direction text) "exit"); [|discriminate Hv].
      injection Hv as <-. exists date. split; reflexivity.
Qed.

End VisionParser.

Section StoragePaths.
Import Py GoogleCloudService.
Variable GCS_BUCKET_NAME : string.

Example replace_not_overlapping : replace "aaa" "aa" "" = "a".
Proof. reflexivity. Qed.

Example replace_every_occurrence :
  replace "gs://b/xgs://b/y" "gs://b/" "" = "xy".
Proof. reflexivity. Qed.

Example replace_empty_old : replace "abc" "" "-" = "-a-b-c-".
Proof. reflexivity. Qed.

Lemma chars_append (a b : string) : chars (a ++ b) = (chars a ++ chars b)%list.
Proof.
  induction a as [|x a IH]; [reflexivity|].
  change (chars (String x (a ++ b)) = x :: (chars a ++ chars b)%list).
  cbn. f_equal. exact IH.
Qed.

Lemma startswith_app (old t : ctext) : startswith old (old ++ t) = true.
Proof. apply startswith_spec. exists t. reflexivity. Qed.

(** Characters that are skipped are dropped. *)
Lemma replace_from_skip (old new m t : ctext) :
  replace_from old new (length m) (m ++ t) = replace_from old new O t.
Proof.
  induction m as [|c m IH]; [|exact IH].
  destruct t; reflexivity.
Qed.

(** Without an occurrence nothing is replaced. *)
Lemma replace_from_absent (old new t : ctext) :
  contains old t = false -> replace_from old new O t = t.
Proof.
  induction t as [|c t IH]; [reflexivity|].
  cbn [contains replace_from]. intros H.
  apply orb_false_iff in H as [H1 H2]. rewrite H1, (IH H2). reflexivity.
Qed.

(** Removing occurrences never makes a text longer, and makes it
    shorter when there is one. *)
Lemma replace_from_length (old t : ctext) :
  forall skip, (length (replace_from old [] skip t) <= length t)%nat.
Proof.
  induction t as [|c t IH]; intros skip; [cbn; lia|].
  cbn [replace_from]. destruct skip as [|k].
  - destruct (startswith old (c :: t)); cbn [app length];
      [specialize (IH (Nat.pred (length old))) | specialize (IH O)]; lia.
  - specialize (IH k). cbn [length]. lia.
Qed.

Lemma replace_from_shorter (old t : ctext) :
  contains old t = true ->
  (length (replace_from old [] O t) < S (length t))%nat
  /\ (t <> [] -> length (replace_from old [] O t) < length t)%nat.
Proof.
  induction t as [|c t IH]; intros H.
  - cbn. split; [lia | congruence].
  - cbn [contains] in H. cbn [replace_from].
    destruct (startswith old (c :: t)) eqn:E.
    + pose proof (replace_from_length old t (Nat.pred (length old))).
      cbn [app length]. split; [lia | intros _; lia].
    + cbn in H. destruct (IH H) as [_ IH'].
      cbn [length]. split; [|intros _].
      * pose proof (replace_from_length old t O). lia.
      * destruct old as [|o old]; [discriminate E|].
        destruct t as [|c' t]; [discriminate H|].
        specialize (IH' ltac:(discriminate)). lia.
Qed.

(** Removing a prefix that is not empty from a text that starts with it
    leaves what the removal leaves of the rest. *)
Lemma replace_prefix (prefix rest : string) :
  chars prefix <> [] ->
  replace (prefix ++ rest) prefix ""
  = str (replace_from (chars prefix) [] O (chars rest)).
Proof.
  intros Hne. unfold replace.
  destruct (chars prefix) as [|c p] eqn:Hp; [congruence|].
  rewrite chars_append, Hp. f_equal.
  change (chars "") with (@nil ascii).
  change ((c :: p) ++ chars rest)%list with (c :: (p ++ chars rest))%list.
  cbn [replace_from].
  change (c :: (p ++ chars rest))%list with ((c :: p) ++ chars rest)%list.
  rewrite startswith_app. cbn [app length Nat.pred].
  apply replace_from_skip.
Qed.

(** The blob asked for by [download_file_from_gcs] and
    [delete_file_from_gcs], given the path that [upload_file_to_gcs]
    returned, is the blob that was written exactly when the blob name,
    which ends with the uploaded file name, does not itself hold the
    text gs://BUCKET/ of the bucket. *)
Theorem download_blob_name_of_upload_path (today filename : string) :
  download_blob_name GCS_BUCKET_NAME (upload_path GCS_BUCKET_NAME today filename)
  = upload_blob_name today filename
  <-> str_in (gcs_prefix GCS_BUCKET_NAME) (upload_blob_name today filename) = false.
Proof.
  unfold download_blob_name, upload_path.
  rewrite replace_prefix by (unfold gcs_prefix; discriminate).
  unfold str_in. split.
  - intros H.
    destruct (contains (chars (gcs_prefix GCS_BUCKET_NAME))
                (chars (upload_blob_name today filename))) eqn:Hc; [|reflexivity].
    exfalso. apply replace_from_shorter in Hc as [_ Hc].
    apply (f_equal chars) in H. rewrite chars_str in H. rewrite H in Hc.
    assert (Hne : chars (upload_blob_name today filename) <> [])
      by (unfold upload_blob_name; discriminate).
    specialize (Hc Hne). lia.
  - intros H. rewrite (replace_from_absent _ _ _ H). apply str_chars.
Qed.

End StoragePaths.

(* ===================================================================== *)
(** ** Properties of the Vision text detection *)
(* ===================================================================== *)

Section VisionDetection.
Import Py GoogleCloudService.

Lemma fold_left_Qplus_bounds (l : list Q) (acc : Q) :
  Forall (fun q => 0 <= q <= 1)%Q l ->
  (acc <= fold_left Qplus l acc
   /\ fold_left Qplus l acc <= acc + inject_Z (Z.of_nat (length l)))%Q.
Proof.
  revert acc. induction l as [|q l IH]; intros acc HF.
  - cbn. split; [apply Qle_refl|]. rewrite Qplus_0_r. apply Qle_refl.
  - apply Forall_cons in HF as [[Hq0 Hq1] HF].
    destruct (IH (acc + q)%Q HF) as [H1 H2]. cbn [fold_left]. split.
    + apply Qle_trans with (acc + q)%Q; [|exact H1].
      rewrite <- (Qplus_0_r acc) at 1. apply Qplus_le_r. exact Hq0.
    + apply Qle_trans with (acc + q + inject_Z (Z.of_nat (length l)))%Q; [exact H2|].
      cbn [length]. rewrite Nat2Z.inj_succ, <- Z.add_1_l, inject_Z_plus.
      rewrite <- Qplus_assoc. apply Qplus_le_r. apply Qplus_le_l. exact Hq1.
Qed.

(** The mean of scores between 0 and 1 is between 0 and 1; without a
    score it is 0. *)
Lemma avg_confidence_bounds (scores : list Q) :
  Forall (fun q => 0 <= q <= 1)%Q scores ->
  (0 <= avg_confidence scores <= 1)%Q.
Proof.
  intros HF. destruct scores as [|q scores]; [split; discriminate|].
  unfold avg_confidence.
  destruct (fold_left_Qplus_bounds (q :: scores) 0 HF) as [H1 H2].
  assert (Hpos : (0 < inject_Z (Z.of_nat (length (q :: scores))))%Q).
  { unfold Qlt. cbn. lia. }
  split.
  - apply Qle_shift_div_l; [exact Hpos|]. rewrite Qmult_0_l. exact H1.
  - apply Qle_shift_div_r; [exact Hpos|]. rewrite Qmult_1_l.
    rewrite Qplus_0_l in H2. exact H2.
Qed.

(** [process_image_with_vision] raises exactly when the response carries
    an error message.  Otherwise its text is the description of the
    first annotation, or empty without annotations; its confidence is 0
    when there is no annotation after the first; and it is between 0 and
    1 when the scores of these annotations are. *)
Theorem process_image_with_vision_outcomes (response : vision_response) :
  match process_image_with_vision response with
  | inr message =>
      error_message response <> ""
      /\ message = "Vision API error: " ++ error_message response
  | inl result =>
      error_message response = ""
      /\ vision_text result
         = match text_annotations response with
           | first :: _ => description first
           | [] => ""
           end
      /\ vision_annotations result = tail (text_annotations response)
      /\ (tail (text_annotations response) = [] -> vision_confidence result = 0%Q)
      /\ (Forall (fun a => 0 <= score a <= 1)%Q (tail (text_annotations response)) ->
          (0 <= vision_confidence result <= 1)%Q)
  end.
Proof.
  unfold process_image_with_vision.
  destruct (error_message response) as [|c message]; cbn [truthy].
  - split; [reflexivity|]. split; [reflexivity|]. split; [reflexivity|].
    cbn [vision_confidence]. split.
    + intros ->. reflexivity.
    + intros HF. apply avg_confidence_bounds.
      apply List.Forall_map. exact HF.
  - split; [discriminate | reflexivity].
Qed.

End VisionDetection.

(* ===================================================================== *)
(** ** Reading back a written date *)
(* ===================================================================== *)

Section DateRoundTrip.
Import Py Re Datetime OCRService StampSpec.

Lemma in_range (lo len : nat) (n : Z) :
  Z.of_nat lo <= n < Z.of_nat (lo + len) ->
  In n (map Z.of_nat (seq lo len)).
Proof.
  intros H. apply in_map_iff. exists (Z.to_nat n).
  split; [lia | apply in_seq; lia].
Qed.

Ltac for_each n lo len :=
  let H := fresh in
  assert (H : In n (map Z.of_nat (seq lo len))) by (apply in_range; lia);
  cbn in H;
  repeat (destruct H as [<- | H]; [reflexivity|]);
  destruct H.

Lemma digit_value (k : Z) :
  0 <= k <= 9 ->
  isdigit (digit_char k) = true /\ Z.of_N (code (digit_char k) - 48) = k.
Proof.
  intros H.
  assert (Hin : In k (map Z.of_nat (seq 0 10))) by (apply in_range; lia).
  cbn in Hin.
  repeat (destruct Hin as [<- | Hin]; [split; reflexivity|]).
  destruct Hin.
Qed.

Lemma test_digit (k : Z) : 0 <= k <= 9 -> test true isdigit (digit_char k) = true.
Proof.
  intros H. unfold test. rewrite (proj1 (digit_value k H)). reflexivity.
Qed.

Lemma int_of_two (n : Z) : 0 <= n <= 99 -> int_of (two_digits n) = n.
Proof.
  intros H. unfold int_of, two_digits. cbn [fold_left].
  destruct (digit_value (n / 10)) as [-> ->]; [Z.div_mod_to_equations; lia|].
  destruct (digit_value (n mod 10)) as [-> ->]; [Z.div_mod_to_equations; lia|].
  Z.div_mod_to_equations. lia.
Qed.

Lemma int_of_four (n : Z) : 0 <= n <= 9999 -> int_of (four_digits n) = n.
Proof.
  intros H. unfold int_of, four_digits. cbn [fold_left].
  destruct (digit_value (n / 1000)) as [-> ->]; [Z.div_mod_to_equations; lia|].
  destruct (digit_value (n / 100 mod 10)) as [-> ->]; [Z.div_mod_to_equations; lia|].
  destruct (digit_value (n / 10 mod 10)) as [-> ->]; [Z.div_mod_to_equations; lia|].
  destruct (digit_value (n mod 10)) as [-> ->]; [Z.div_mod_to_equations; lia|].
  Z.div_mod_to_equations. lia.
Qed.

(** How the month directive matches a number written with two digits:
    both digits first; for 10 to 12 the first digit alone is tried
    next. *)
Lemma matches_month (m : Z) (rest : ctext) :
  1 <= m <= 12 ->
  matches true (directive_regex D_m) (two_digits m ++ rest)
  = rest :: (if 10 <=? m then [digit_char (m mod 10) :: rest] else []).
Proof. intros H. for_each m 1%nat 12%nat. Qed.

(** A number above 12 is no month: only its first digit matches. *)
Lemma matches_month_above_12 (d : Z) (rest : ctext) :
  13 <= d <= 31 ->
  matches true (directive_regex D_m) (two_digits d ++ rest)
  = [digit_char (d mod 10) :: rest].
Proof. intros H. for_each d 13%nat 19%nat. Qed.

Lemma matches_day (d : Z) (rest : ctext) :
  1 <= d <= 31 ->
  matches true (directive_regex D_d) (two_digits d ++ rest)
  = rest :: (if 10 <=? d then [digit_char (d mod 10) :: rest] else []).
Proof. intros H. for_each d 1%nat 31%nat. Qed.

Lemma matches_year (y : Z) (rest : ctext) :
  0 <= y <= 9999 ->
  matches true (directive_regex D_Y) (four_digits y ++ rest) = [rest].
Proof.
  intros H. unfold directive_regex, four_digits, digit. cbn [Seq matches app].
  rewrite test_digit by (Z.div_mod_to_equations; lia). cbn [flat_map app].
  rewrite test_digit by (Z.div_mod_to_equations; lia). cbn [flat_map app].
  rewrite test_digit by (Z.div_mod_to_equations; lia). cbn [flat_map app].
  rewrite test_digit by (Z.div_mod_to_equations; lia). reflexivity.
Qed.

Lemma format_matches_chr (ds : list directive) (f : fields)
    (a c : ascii) (rest : ctext) :
  format_matches (D_chr a :: ds) f (c :: rest)
  = if test true (Ascii.eqb a) c then format_matches ds f rest else [].
Proof.
  destruct f as [[y m] d]. cbn [format_matches directive_regex matches].
  destruct (test true (Ascii.eqb a) c); cbn [flat_map set_field];
    [apply app_nil_r | reflexivity].
Qed.

(** The two separators of the formats. *)
Lemma format_matches_sep (ds : list directive) (f : fields) (sep : ascii) (rest : ctext) :
  format_matches (D_chr sep :: ds) f (sep :: rest) = format_matches ds f rest.
Proof.
  rewrite format_matches_chr. unfold test. rewrite Ascii.eqb_refl. reflexivity.
Qed.

(** A digit is no separator. *)
Lemma format_matches_sep_digit (ds : list directive) (f : fields)
    (sep : ascii) (k : Z) (rest : ctext) :
  sep = "/"%char \/ sep = "-"%char ->
  0 <= k <= 9 ->
  format_matches (D_chr sep :: ds) f (digit_char k :: rest) = [].
Proof.
  intros Hsep H. rewrite format_matches_chr.
  assert (E : test true (Ascii.eqb sep) (digit_char k) = false).
  { assert (Hin : In k (map Z.of_nat (seq 0 10))) by (apply in_range; lia).
    cbn in Hin.
    destruct Hsep as [-> | ->];
      repeat (destruct Hin as [<- | Hin]; [reflexivity|]); destruct Hin. }
  rewrite E. reflexivity.
Qed.

Lemma format_matches_month (ds : list directive) (y0 m0 d0 m : Z)
    (sep : ascii) (rest : ctext) :
  sep = "/"%char \/ sep = "-"%char ->
  1 <= m <= 12 ->
  format_matches (D_m :: D_chr sep :: ds) (y0, m0, d0) (two_digits m ++ sep :: rest)
  = format_matches ds (y0, m, d0) rest.
Proof.
  intros Hsep H.
  change (format_matches (D_m :: D_chr sep :: ds) (y0, m0, d0)
            (two_digits m ++ sep :: rest))
    with (flat_map
            (fun r => format_matches (D_chr sep :: ds)
                        (set_field D_m
                           (take (length (two_digits m ++ sep :: rest) - length r)
                              (two_digits m ++ sep :: rest)) (y0, m0, d0)) r)
            (matches true (directive_regex D_m) (two_digits m ++ sep :: rest))).
  rewrite matches_month by exact H.
  cbn [flat_map]. rewrite take_matched, format_matches_sep.
  cbn [set_field]. rewrite int_of_two by lia.
  destruct (10 <=? m); cbn [flat_map app];
    rewrite ?format_matches_sep_digit by (auto; Z.div_mod_to_equations; lia);
    rewrite ?app_nil_r; reflexivity.
Qed.

Lemma format_matches_no_month (ds : list directive) (f : fields) (d : Z)
    (sep : ascii) (rest : ctext) :
  sep = "/"%char \/ sep = "-"%char ->
  13 <= d <= 31 ->
  format_matches (D_m :: D_chr sep :: ds) f (two_digits d ++ sep :: rest) = [].
Proof.
  intros Hsep H.
  change (format_matches (D_m :: D_chr sep :: ds) f (two_digits d ++ sep :: rest))
    with (flat_map
            (fun r => format_matches (D_chr sep :: ds)
                        (set_field D_m
                           (take (length (two_digits d ++ sep :: rest) - length r)
                              (two_digits d ++ sep :: rest)) f) r)
            (matches true (directive_regex D_m) (two_digits d ++ sep :: rest))).
  rewrite matches_month_above_12 by exact H.
  cbn [flat_map].
  rewrite format_matches_sep_digit by (auto; Z.div_mod_to_equations; lia).
  reflexivity.
Qed.

Lemma format_matches_day (ds : list directive) (y0 m0 d0 d : Z)
    (sep : ascii) (rest : ctext) :
  sep = "/"%char \/ sep = "-"%char ->
  1 <= d <= 31 ->
  format_matches (D_d :: D_chr sep :: ds) (y0, m0, d0) (two_digits d ++ sep :: rest)
  = format_matches ds (y0, m0, d) rest.
Proof.
  intros Hsep H.
  change (format_matches (D_d :: D_chr sep :: ds) (y0, m0, d0)
            (two_digits d ++ sep :: rest))
    with (flat_map
            (fun r => format_matches (D_chr sep :: ds)
                        (set_field D_d
                           (take (length (two_digits d ++ sep :: rest) - length r)
                              (two_digits d ++ sep :: rest)) (y0, m0, d0)) r)
            (matches true (directive_regex D_d) (two_digits d ++ sep :: rest))).
  rewrite matches_day by exact H.
  cbn [flat_map]. rewrite take_matched, format_matches_sep.
  cbn [set_field]. rewrite int_of_two by lia.
  destruct (10 <=? d); cbn [flat_map app];
    rewrite ?format_matches_sep_digit by (auto; Z.div_mod_to_equations; lia);
    rewrite ?app_nil_r; reflexivity.
Qed.

Lemma format_matches_year (y0 m0 d0 y : Z) :
  0 <= y <= 9999 ->
  format_matches [D_Y] (y0, m0, d0) (four_digits y) = [((y, m0, d0), [])].
Proof.
  intros H.
  change (format_matches [D_Y] (y0, m0, d0) (four_digits y))
    with (flat_map
            (fun r => [(set_field D_Y
                          (take (length (four_digits y) - length r) (four_digits y))
                          (y0, m0, d0), r)])
            (matches true (directive_regex D_Y) (four_digits y))).
  pose proof (matches_year y [] H) as Hm. rewrite app_nil_r in Hm.
  rewrite Hm. cbn [flat_map app].
  rewrite (take_ge (four_digits y)) by (cbn; lia).
  cbn [set_field]. rewrite int_of_four by exact H. reflexivity.
Qed.

Lemma valid_date_bounds (y m d : Z) :
  valid_date y m d = true -> 1 <= y <= 9999 /\ 1 <= m <= 12 /\ 1 <= d <= 31.
Proof.
  unfold valid_date, days_in_month.
  rewrite !andb_true_iff, !Z.leb_le.
  intros (((((Hy1 & Hy2) & Hm1) & Hm2) & Hd1) & Hd2).
  destruct (m =? 2); [destruct (is_leap y); lia|].
  destruct ((m =? 4) || (m =? 6) || (m =? 9) || (m =? 11)); lia.
Qed.

(** A date of the calendar written month first, as MM/DD/YYYY, is read
    back by [_parse_date] as that date.  So a text AA/BB/YYYY is read
    with AA as the month whenever that is a date, also when BB/AA would
    be one. *)
Theorem parse_date_month_first (y m d : Z) :
  valid_date y m d = true ->
  _parse_date (slash_date m d y) = Some (mk_datetime y m d 0 0 0 0).
Proof.
  intros Hv. destruct (valid_date_bounds y m d Hv) as (Hy & Hm & Hd).
  unfold _parse_date, date_formats. cbn [parse_date_with].
  assert (E : strptime (slash_date m d y) "%m/%d/%Y"
              = Some (mk_datetime y m d 0 0 0 0)).
  { unfold strptime, slash_date. rewrite chars_str.
    change (directives (chars "%m/%d/%Y"))
      with (Some [D_m; D_chr "/"; D_d; D_chr "/"; D_Y]).
    cbv iota beta.
    rewrite format_matches_month by (auto; exact Hm).
    rewrite format_matches_day by (auto; exact Hd).
    rewrite format_matches_year by lia.
    rewrite Hv. reflexivity. }
  rewrite E. reflexivity.
Qed.

(** Written day first, as DD/MM/YYYY, a date is read back as that date
    when its day is above 12. *)
Theorem parse_date_day_first_above_12 (y m d : Z) :
  valid_date y m d = true -> 12 < d ->
  _parse_date (slash_date d m y) = Some (mk_datetime y m d 0 0 0 0).
Proof.
  intros Hv H12. destruct (valid_date_bounds y m d Hv) as (Hy & Hm & Hd).
  unfold _parse_date, date_formats. cbn [parse_date_with].
  assert (E1 : strptime (slash_date d m y) "%m/%d/%Y" = None).
  { unfold strptime, slash_date. rewrite chars_str.
    change (directives (chars "%m/%d/%Y"))
      with (Some [D_m; D_chr "/"; D_d; D_chr "/"; D_Y]).
    cbv iota beta. rewrite format_matches_no_month by (auto; lia). reflexivity. }
  assert (E2 : strptime (slash_date d m y) "%m/%d/%y" = None).
  { unfold strptime, slash_date. rewrite chars_str.
    change (directives (chars "%m/%d/%y"))
      with (Some [D_m; D_chr "/"; D_d; D_chr "/"; D_y]).
    cbv iota beta. rewrite format_matches_no_month by (auto; lia). reflexivity. }
  assert (E3 : strptime (slash_date d m y) "%d/%m/%Y"
               = Some (mk_datetime y m d 0 0 0 0)).
  { unfold strptime, slash_date. rewrite chars_str.
    change (directives (chars "%d/%m/%Y"))
      with (Some [D_d; D_chr "/"; D_m; D_chr "/"; D_Y]).
    cbv iota beta.
    rewrite format_matches_day by (auto; exact Hd).
    rewrite format_matches_month by (auto; exact Hm).
    rewrite format_matches_year by lia.
    rewrite Hv. reflexivity. }
  rewrite E1, E2, E3. reflexivity.
Qed.

(** The month and the day directives take one or two characters. *)
Lemma matches_month_suffix (a b : ascii) (rest r : ctext) :
  In r (matches true (directive_regex D_m) (a :: b :: rest)) ->
  r = b :: rest \/ r = rest.
Proof.
  intros H. cbn [directive_regex Alts matches flat_map app] in H.
  repeat (match type of H with
          | context [if ?c then _ else _] => destruct c
          end; cbn [flat_map app] in H);
    cbn [In] in H; intuition (subst; auto).
Qed.

Lemma matches_day_suffix (a b : ascii) (rest r : ctext) :
  In r (matches true (directive_regex D_d) (a :: b :: rest)) ->
  r = b :: rest \/ r = rest.
Proof.
  intros H. cbn [directive_regex Alts] in H. unfold digit in H.
  cbn [matches flat_map app] in H.
  repeat (match type of H with
          | context [if ?c then _ else _] => destruct c
          end; cbn [matches flat_map app] in H);
    cbn [In] in H; intuition (subst; auto).
Qed.

Lemma flat_map_all_nil {A B : Type} (g : A -> list B) (l : list A) :
  (forall x, In x l -> g x = []) -> flat_map g l = [].
Proof.
  induction l as [|x l IH]; intros H; [reflexivity|].
  cbn. rewrite (H x) by (left; reflexivity).
  apply IH. intros x' Hx'. apply H. right. exact Hx'.
Qed.

(** A text that begins with three digits is no slash date. *)
Lemma format_matches_three_digits (d : directive) (ds : list directive) (f : fields)
    (k1 k2 k3 : Z) (rest : ctext) :
  d = D_m \/ d = D_d ->
  0 <= k2 <= 9 -> 0 <= k3 <= 9 ->
  format_matches (d :: D_chr "/" :: ds) f
    (digit_char k1 :: digit_char k2 :: digit_char k3 :: rest) = [].
Proof.
  intros Hd H2 H3. cbn [format_matches].
  apply flat_map_all_nil. intros r Hr.
  assert (Hr' : r = digit_char k2 :: digit_char k3 :: rest
                \/ r = digit_char k3 :: rest).
  { destruct Hd as [-> | ->];
      [apply matches_month_suffix in Hr | apply matches_day_suffix in Hr]; exact Hr. }
  destruct Hr' as [-> | ->]; apply format_matches_sep_digit; auto.
Qed.

Lemma format_matches_year_sep (ds : list directive) (y0 m0 d0 y : Z)
    (sep : ascii) (rest : ctext) :
  0 <= y <= 9999 ->
  format_matches (D_Y :: D_chr sep :: ds) (y0, m0, d0) (four_digits y ++ sep :: rest)
  = format_matches ds (y, m0, d0) rest.
Proof.
  intros H.
  change (format_matches (D_Y :: D_chr sep :: ds) (y0, m0, d0)
            (four_digits y ++ sep :: rest))
    with (flat_map
            (fun r => format_matches (D_chr sep :: ds)
                        (set_field D_Y
                           (take (length (four_digits y ++ sep :: rest) - length r)
                              (four_digits y ++ sep :: rest)) (y0, m0, d0)) r)
            (matches true (directive_regex D_Y) (four_digits y ++ sep :: rest))).
  rewrite matches_year by exact H.
  cbn [flat_map]. rewrite take_matched, format_matches_sep, app_nil_r.
  cbn [set_field]. rewrite int_of_four by exact H. reflexivity.
Qed.

Lemma format_matches_day_end (y0 m0 d0 d : Z) :
  1 <= d <= 31 ->
  exists others,
    format_matches [D_d] (y0, m0, d0) (two_digits d) = ((y0, m0, d), []) :: others.
Proof.
  intros H.
  change (format_matches [D_d] (y0, m0, d0) (two_digits d))
    with (flat_map
            (fun r => [(set_field D_d
                          (take (length (two_digits d) - length r) (two_digits d))
                          (y0, m0, d0), r)])
            (matches true (directive_regex D_d) (two_digits d))).
  pose proof (matches_day d [] H) as Hm. rewrite app_nil_r in Hm. rewrite Hm.
  cbn [flat_map app]. rewrite (take_ge (two_digits d)) by (cbn; lia).
  cbn [set_field]. rewrite int_of_two by lia. eexists. reflexivity.
Qed.

(** A date of the calendar written as YYYY-MM-DD is read back by
    [_parse_date] as that date: none of the four slash formats takes
    it. *)
Theorem parse_date_iso (y m d : Z) :
  valid_date y m d = true ->
  _parse_date (iso_date y m d) = Some (mk_datetime y m d 0 0 0 0).
Proof.
  intros Hv. destruct (valid_date_bounds y m d Hv) as (Hy & Hm & Hd).
  unfold _parse_date, date_formats. cbn [parse_date_with].
  assert (Hslash : forall fmt d0 ds,
             (d0 = D_m \/ d0 = D_d) ->
             directives (chars fmt) = Some (d0 :: D_chr "/" :: ds) ->
             strptime (iso_date y m d) fmt = None).
  { intros fmt d0 ds Hd0 Hfmt. unfold strptime, iso_date.
    rewrite chars_str, Hfmt. unfold four_digits at 1. cbn [app].
    rewrite format_matches_three_digits
      by (auto; Z.div_mod_to_equations; lia).
    reflexivity. }
  rewrite (Hslash "%m/%d/%Y" D_m [D_d; D_chr "/"; D_Y]) by (auto; reflexivity).
  rewrite (Hslash "%m/%d/%y" D_m [D_d; D_chr "/"; D_y]) by (auto; reflexivity).
  rewrite (Hslash "%d/%m/%Y" D_d [D_m; D_chr "/"; D_Y]) by (auto; reflexivity).
  rewrite (Hslash "%d/%m/%y" D_d [D_m; D_chr "/"; D_y]) by (auto; reflexivity).
  assert (E : strptime (iso_date y m d) "%Y-%m-%d"
              = Some (mk_datetime y m d 0 0 0 0)).
  { unfold strptime, iso_date. rewrite chars_str.
    change (directives (chars "%Y-%m-%d"))
      with (Some [D_Y; D_chr "-"; D_m; D_chr "-"; D_d]).
    cbv iota beta.
    rewrite format_matches_year_sep by lia.
    rewrite format_matches_month by (auto; exact Hm).
    destruct (format_matches_day_end y m 1 d Hd) as (others & ->).
    rewrite Hv. reflexivity. }
  rewrite E. reflexivity.
Qed.

End DateRoundTrip.

Lemma parse_date_month_first_witness :
  OCRService._parse_date "03/04/2023"
  = Some (Datetime.mk_datetime 2023 3 4 0 0 0 0).
Proof.
  exact (parse_date_month_first 2023 3 4 eq_refl).
Defined.

Lemma parse_date_day_first_above_12_witness :
  OCRService._parse_date "14/03/2023"
  = Some (Datetime.mk_datetime 2023 3 14 0 0 0 0).
Proof.
  exact (parse_date_day_first_above_12 2023 3 14 eq_refl eq_refl).
Defined.

Lemma parse_date_iso_witness :
  OCRService._parse_date "2023-03-14"
  = Some (Datetime.mk_datetime 2023 3 14 0 0 0 0).
Proof.
  exact (parse_date_iso 2023 3 14 eq_refl).
Defined.
